(** * Tax engine, rule table and front-end mapping of tax-simplify

    Three parts:
    - [Engine]: the fiscal-year rule registry and the tax pipeline of the
      Python back end (api/app.py, referenced by the README and called by
      the front end, not part of the sources at hand), modelled from the
      spec, together with the rule table literally shipped in
      src/src/api/taxCalculator.ts;
    - [Mock]: the mock [calculateTax] of src/src/api/taxCalculator.ts with
      its console and timer effects, and the JavaScript property lookups
      that TaxResults performs on its result;
    - [Form]: [mapFormDataToRequest] of the front-end API layer and the two
      medical-details forms of the repository;
    - [App]: the wizard of src/src/pages/Index.tsx with its forms and
      context, as a step relation on the page state;
    - [Wire]: the untyped API layer of part_006 ([mapFormDataToRequest],
      [calculateTax] over [fetch]) and the TaxResults of part_007 that
      calls it, on JavaScript values. *)

From Stdlib Require Import ZArith QArith Qminmax List String Ascii Bool Sorted Floats Lia.
From Stdlib Require Uint63.
Import ListNotations.

(** Association-list lookup with string keys, as a JSON object / Python
    dict read by key. *)
Fixpoint assoc {A : Type} (k : string) (l : list (string * A)) : option A :=
  match l with
  | [] => None
  | (k', v) :: rest => if String.eqb k k' then Some v else assoc k rest
  end.

(* ------------------------------------------------------------------ *)
(** ** The engine (spec-modelled) and the shipped rule table *)

Module Engine.
Local Open Scope string_scope.
Local Open Scope Q_scope.

(** Boolean comparisons on [Q]. *)
Definition Qlt_bool (a b : Q) : bool := negb (Qle_bool b a).

(** A slab entry of the rule table: [{"limit": n | null, "rate": r}];
    [None] is the JSON [null], i.e. unbounded. *)
Record Slab := { limit : option Q; rate : Q }.

(** An entry of a raw [surcharge] object of the table: normally a key
    (the income threshold) mapped to a rate; the 2024-25 entry
    [{"limit": 500000000, "rate": 0.37}] stands inside the object without
    a key. *)
Inductive RawSurchargeEntry :=
| SurchargeKeyed (threshold : Q) (r : Q)
| SurchargeUnkeyed (lim : Q) (r : Q).

Record RawRegime := {
  raw_slabsets : list (string * list Slab);
  raw_surcharge : list RawSurchargeEntry;
  raw_cess : Q
}.

Record RawFiscalYear := {
  raw_standard_deduction : Q;
  raw_rebate_limit : Q;
  raw_rebate_income_threshold : Q;
  raw_old_regime : RawRegime;
  raw_new_regime : RawRegime;
  raw_deduction_limits : list (string * option Q)
}.

(** The rule table of src/src/api/taxCalculator.ts, lines 167-369. *)
Definition surcharge_2023 : list RawSurchargeEntry :=
  [SurchargeKeyed 50000000 0.10; SurchargeKeyed 100000000 0.15;
   SurchargeKeyed 200000000 0.25; SurchargeKeyed 500000000 0.37].

Definition surcharge_2024 : list RawSurchargeEntry :=
  [SurchargeKeyed 50000000 0.10; SurchargeKeyed 100000000 0.15;
   SurchargeKeyed 200000000 0.25; SurchargeUnkeyed 500000000 0.37].

Definition old_slabs_2023 : list (string * list Slab) :=
  [("general",
     [{| limit := Some 250000; rate := 0.0 |};
      {| limit := Some 500000; rate := 0.05 |};
      {| limit := Some 1000000; rate := 0.20 |};
      {| limit := None; rate := 0.30 |}]);
   ("senior_citizen",
     [{| limit := Some 300000; rate := 0.0 |};
      {| limit := Some 500000; rate := 0.05 |};
      {| limit := Some 1000000; rate := 0.20 |};
      {| limit := None; rate := 0.30 |}]);
   ("super_senior_citizen",
     [{| limit := Some 500000; rate := 0.0 |};
      {| limit := Some 1000000; rate := 0.20 |};
      {| limit := None; rate := 0.30 |}])].

Definition deduction_limits_table : list (string * option Q) :=
  [("80C", Some 150000);
   ("24b_home_loan_interest_self_occupied", Some 200000);
   ("80eea_home_loan_interest_first_time_buyer", Some 150000)].

Definition fy_2023_24 : RawFiscalYear := {|
  raw_standard_deduction := 50000;
  raw_rebate_limit := 12500;
  raw_rebate_income_threshold := 500000;
  raw_old_regime := {| raw_slabsets := old_slabs_2023;
                       raw_surcharge := surcharge_2023;
                       raw_cess := 0.04 |};
  raw_new_regime := {|
    raw_slabsets :=
      [("general",
         [{| limit := Some 250000; rate := 0.0 |};
          {| limit := Some 500000; rate := 0.05 |};
          {| limit := Some 750000; rate := 0.10 |};
          {| limit := Some 1000000; rate := 0.15 |};
          {| limit := Some 1250000; rate := 0.20 |};
          {| limit := Some 1500000; rate := 0.25 |};
          {| limit := None; rate := 0.30 |}])];
    raw_surcharge := surcharge_2023;
    raw_cess := 0.04 |};
  raw_deduction_limits := deduction_limits_table
|}.

Definition fy_2024_25 : RawFiscalYear := {|
  raw_standard_deduction := 50000;
  raw_rebate_limit := 25000;
  raw_rebate_income_threshold := 700000;
  raw_old_regime := {| raw_slabsets := old_slabs_2023;
                       raw_surcharge := surcharge_2024;
                       raw_cess := 0.04 |};
  raw_new_regime := {|
    raw_slabsets :=
      [("general",
         [{| limit := Some 300000; rate := 0.0 |};
          {| limit := Some 600000; rate := 0.05 |};
          {| limit := Some 900000; rate := 0.10 |};
          {| limit := Some 1200000; rate := 0.15 |};
          {| limit := Some 1500000; rate := 0.20 |};
          {| limit := None; rate := 0.30 |}])];
    raw_surcharge := surcharge_2024;
    raw_cess := 0.04 |};
  raw_deduction_limits := deduction_limits_table
|}.

Definition fy_2025_26 : RawFiscalYear := {|
  raw_standard_deduction := 50000;
  raw_rebate_limit := 25000;
  raw_rebate_income_threshold := 700000;
  raw_old_regime := {| raw_slabsets := [("general", []); ("senior_citizen", []);
                                        ("super_senior_citizen", [])];
                       raw_surcharge := [];
                       raw_cess := 0.04 |};
  raw_new_regime := {| raw_slabsets := [("general", [])];
                       raw_surcharge := [];
                       raw_cess := 0.04 |};
  raw_deduction_limits := deduction_limits_table
|}.

Definition tax_rules_table : list (string * RawFiscalYear) :=
  [("2023-24", fy_2023_24); ("2024-25", fy_2024_25); ("2025-26", fy_2025_26)].

(** Validated rules, as the registry exposes them. *)
Record Regime := {
  slabSets : list (string * list Slab);
  surchargeTiers : list (Q * Q);   (* (incomeThreshold, rate) *)
  cessRate : Q
}.

Record FiscalYearRules := {
  standardDeduction : Q;
  rebate_limit : Q;
  rebate_incomeThreshold : Q;
  old_regime : Regime;
  new_regime : Regime;
  deductionLimits : list (string * option Q)
}.

Inductive RuleError := InvalidRuleData | UnknownFiscalYear.

Inductive result (A : Type) := Ok (a : A) | Err (e : RuleError).
Arguments Ok {A} a.
Arguments Err {A} e.

Definition bind {A B : Type} (m : result A) (k : A -> result B) : result B :=
  match m with Ok a => k a | Err e => Err e end.

(** Modelled from the spec: the rule registry of api/app.py (section 4.1
    and the invariant of section 3): slab bounds strictly increasing, the
    last bound unbounded, surcharge thresholds strictly increasing, all
    rates in [0,1]; any violation is [InvalidRuleData]. *)
Definition rate_ok (r : Q) : bool := Qle_bool 0 r && Qle_bool r 1.

Definition above (lower : option Q) (b : Q) : bool :=
  match lower with None => true | Some a => Qlt_bool a b end.

Fixpoint slabs_ok_from (lower : option Q) (l : list Slab) : bool :=
  match l with
  | [] => false
  | s :: rest =>
      match limit s, rest with
      | None, [] => rate_ok (rate s)
      | Some b, _ :: _ => above lower b && rate_ok (rate s) && slabs_ok_from (Some b) rest
      | _, _ => false
      end
  end.

Fixpoint tiers_ok_from (lower : option Q) (l : list (Q * Q)) : bool :=
  match l with
  | [] => true
  | (t, r) :: rest => above lower t && rate_ok r && tiers_ok_from (Some t) rest
  end.

Definition tier_of_raw (e : RawSurchargeEntry) : result (Q * Q) :=
  match e with
  | SurchargeKeyed t r => Ok (t, r)
  | SurchargeUnkeyed _ _ => Err InvalidRuleData
  end.

Fixpoint tiers_of_raw (l : list RawSurchargeEntry) : result (list (Q * Q)) :=
  match l with
  | [] => Ok []
  | e :: rest => bind (tier_of_raw e) (fun t =>
                 bind (tiers_of_raw rest) (fun ts => Ok (t :: ts)))
  end.

Definition load_regime (r : RawRegime) : result Regime :=
  bind (tiers_of_raw (raw_surcharge r)) (fun tiers =>
  if forallb (fun p => slabs_ok_from None (snd p)) (raw_slabsets r)
     && tiers_ok_from None tiers && rate_ok (raw_cess r)
  then Ok {| slabSets := raw_slabsets r; surchargeTiers := tiers;
             cessRate := raw_cess r |}
  else Err InvalidRuleData).

Definition load_fiscal_year (fy : RawFiscalYear) : result FiscalYearRules :=
  bind (load_regime (raw_old_regime fy)) (fun o =>
  bind (load_regime (raw_new_regime fy)) (fun n =>
  Ok {| standardDeduction := raw_standard_deduction fy;
        rebate_limit := raw_rebate_limit fy;
        rebate_incomeThreshold := raw_rebate_income_threshold fy;
        old_regime := o; new_regime := n;
        deductionLimits := raw_deduction_limits fy |})).

Definition Registry := list (string * FiscalYearRules).

(** Loading is all or nothing: one malformed year is fatal at start-up. *)
Fixpoint load_rules (table : list (string * RawFiscalYear)) : result Registry :=
  match table with
  | [] => Ok []
  | (y, fy) :: rest => bind (load_fiscal_year fy) (fun r =>
                       bind (load_rules rest) (fun reg => Ok ((y, r) :: reg)))
  end.

Definition getRules (reg : Registry) (year : string) : result FiscalYearRules :=
  match assoc year reg with Some r => Ok r | None => Err UnknownFiscalYear end.

(** The invariant of section 3, as propositions. *)
Definition slabs_wf (l : list Slab) : Prop :=
  exists bs, map limit l = (map Some bs ++ [None])%list /\ Sorted Qlt bs /\
             Forall (fun s => 0 <= rate s <= 1) l.

Definition regime_wf (r : Regime) : Prop :=
  Forall (fun p => slabs_wf (snd p)) (slabSets r) /\
  Sorted Qlt (map fst (surchargeTiers r)) /\
  Forall (fun t => 0 <= snd t <= 1) (surchargeTiers r) /\
  0 <= cessRate r <= 1.

Definition rules_wf (fy : FiscalYearRules) : Prop :=
  regime_wf (old_regime fy) /\ regime_wf (new_regime fy).

(** The raw invariant: what a rule-table year must satisfy to load. *)
Definition raw_regime_wf (r : RawRegime) : Prop :=
  Forall (fun p => slabs_wf (snd p)) (raw_slabsets r) /\
  exists tiers, tiers_of_raw (raw_surcharge r) = Ok tiers /\
    Sorted Qlt (map fst tiers) /\ Forall (fun t => 0 <= snd t <= 1) tiers /\
    0 <= raw_cess r <= 1.

Definition raw_fy_wf (fy : RawFiscalYear) : Prop :=
  raw_regime_wf (raw_old_regime fy) /\ raw_regime_wf (raw_new_regime fy).

(** Modelled from the spec: the tax pipeline of api/app.py
    (sections 4.2-4.7). *)

(** 4.2: age band of the old regime; the new regime has only "general". *)
Definition selectCategory (age : Z) : string :=
  if (age <? 60)%Z then "general"
  else if (age <? 80)%Z then "senior_citizen"
  else "super_senior_citizen".

(** 4.3: the marginal walk with a running lower bound; an unbounded slab
    absorbs the remainder and ends the walk. *)
Fixpoint slab_walk (income lower : Q) (slabs : list Slab) : Q :=
  match slabs with
  | [] => 0
  | s :: rest =>
      if Qle_bool income lower then 0
      else
        match limit s with
        | Some upper => Qmax 0 (Qmin income upper - lower) * rate s
                        + slab_walk income upper rest
        | None => Qmax 0 (income - lower) * rate s
        end
  end.

Definition computeSlabTax (taxableIncome : Q) (slabs : list Slab) : Q :=
  slab_walk (Qmax 0 taxableIncome) 0 slabs.

(** 4.6: the 87A-style rebate. *)
Definition applyRebate (fy : FiscalYearRules) (taxableIncome taxBeforeRebate : Q) : Q :=
  if Qle_bool taxableIncome (rebate_incomeThreshold fy)
  then Qmax 0 (taxBeforeRebate - Qmin (rebate_limit fy) taxBeforeRebate)
  else taxBeforeRebate.

(** 4.5: the single highest tier whose threshold the income meets, then
    the flat cess on tax plus surcharge. *)
Definition highest_met_tier (totalIncome : Q) (tiers : list (Q * Q)) : option (Q * Q) :=
  fold_left (fun acc t =>
               if Qle_bool (fst t) totalIncome then
                 match acc with
                 | Some b => if Qle_bool (fst b) (fst t) then Some t else acc
                 | None => Some t
                 end
               else acc) tiers None.

Definition surchargeRate (totalIncome : Q) (tiers : list (Q * Q)) : Q :=
  match highest_met_tier totalIncome tiers with Some t => snd t | None => 0 end.

Definition applySurchargeAndCess (baseTax totalIncome : Q) (tiers : list (Q * Q))
    (cess : Q) : Q :=
  let surcharge := baseTax * surchargeRate totalIncome tiers in
  (baseTax + surcharge) * (1 + cess).

(** One regime, from its taxable income: slab tax, rebate, surcharge,
    cess; [None] when the regime has no slab set for the category. *)
Definition regimeTax (fy : FiscalYearRules) (r : Regime) (category : string)
    (taxableIncome : Q) : option Q :=
  match assoc category (slabSets r) with
  | None => None
  | Some slabs =>
      let base := computeSlabTax taxableIncome slabs in
      let afterRebate := applyRebate fy taxableIncome base in
      Some (applySurchargeAndCess afterRebate taxableIncome (surchargeTiers r) (cessRate r))
  end.

(** 4.4: deduction accounting of one section (a combined group is given
    the sum of its contributions). *)
Record DeductionBreakdown := {
  used : Q;
  dlimit : option Q;
  remaining_capacity : option Q;
  estimated_tax_saving_if_fully_used : Q;
  tax_saved_from_used_approx : Q
}.

Definition section_used (contributed : Q) (lim : option Q) : Q :=
  match lim with Some L => Qmin contributed L | None => contributed end.

Definition breakdown (contributed : Q) (lim : option Q) (marginalRate : Q)
    : DeductionBreakdown :=
  let u := section_used contributed lim in
  let rem := option_map (fun L => Qmax 0 (L - u)) lim in
  {| used := u; dlimit := lim; remaining_capacity := rem;
     estimated_tax_saving_if_fully_used :=
       match rem with Some c => c * marginalRate | None => 0 end;
     tax_saved_from_used_approx := u * marginalRate |}.

(** The rate of the bracket the income currently falls in. *)
Fixpoint marginal_rate (income : Q) (slabs : list Slab) : Q :=
  match slabs with
  | [] => 0
  | s :: rest =>
      match limit s with
      | None => rate s
      | Some upper => if Qle_bool income upper then rate s else marginal_rate income rest
      end
  end.

(** The 80C family: 80C instruments and home-loan principal, summed, then
    capped by the "80C" limit of the rules. *)
Definition section80C (fy : FiscalYearRules) (total_80c_investments
    home_loan_principal_80c marginalRate : Q) : option DeductionBreakdown :=
  match assoc "80C" (deductionLimits fy) with
  | None => None
  | Some lim => Some (breakdown (total_80c_investments + home_loan_principal_80c)
                                lim marginalRate)
  end.

(** 4.7: regime comparison. *)
Inductive RegimeName := OldRegime | NewRegime.

Definition optimalRegime (oldTax newTax : Q) : RegimeName :=
  if Qlt_bool oldTax newTax then OldRegime else NewRegime.

Record RegimeResult := { tax : Q; taxableIncome : Q }.

Record TaxCalculationResult := {
  optimal_regime : RegimeName;
  oldRegimeResult : RegimeResult;
  newRegimeResult : RegimeResult
}.

Definition compareRegimes (fy : FiscalYearRules) (category : string)
    (oldTaxable newTaxable : Q) : option TaxCalculationResult :=
  match regimeTax fy (old_regime fy) category oldTaxable,
        regimeTax fy (new_regime fy) "general" newTaxable with
  | Some ot, Some nt =>
      Some {| optimal_regime := optimalRegime ot nt;
              oldRegimeResult := {| tax := ot; taxableIncome := oldTaxable |};
              newRegimeResult := {| tax := nt; taxableIncome := newTaxable |} |}
  | _, _ => None
  end.

(** A request served by the engine: registry load at start-up, lookup of
    the year, then the computation. *)
Definition serve (table : list (string * RawFiscalYear)) (year : string)
    (category : string) (oldTaxable newTaxable : Q)
    : result (option TaxCalculationResult) :=
  bind (load_rules table) (fun reg =>
  bind (getRules reg year) (fun fy =>
  Ok (compareRegimes fy category oldTaxable newTaxable))).

End Engine.

(* ------------------------------------------------------------------ *)
(** ** The mock [calculateTax] of src/src/api/taxCalculator.ts *)

Module Mock.
Local Open Scope string_scope.

(** A JavaScript number. *)
Definition number := float.

Record TaxCalculationRequest := {
  email : string;
  birthDate : string;
  gender : string;
  employmentType : string;
  residencyCountry : string;
  hasDependentSeniorParents : bool;
  basicSalary : number;
  hraReceived : bool;
  hraAmount : number;
  cityType : string;
  taxSavingInvestments : number;
  npsContribution : string;
  healthInsurance : number;
  hasStudentLoan : bool;
  studentLoanInterest : number;
  hasHousingLoan : bool;
  isSelfOccupied : bool;
  housingLoanInterest : number;
  capitalGains : number;
  gainsAmount : number;
  dividends : number;
  investmentType : string;
  digitalAssetsSale : number;
  disabilityStatus : string;
  criticalIllnessExpenses : number;
  hasDisabledDependents : bool;
  dependentMedicalExpenses : number
}.

(** JavaScript values as far as the result objects go. *)
Inductive jsval :=
| JUndefined
| JNumber (n : number)
| JString (s : string)
| JObject (props : list (string * jsval)).

(** The world the function runs in: the console it logs to and the clock
    its timer advances (milliseconds). *)
Record World := { console : list TaxCalculationRequest; clock : Z }.

Definition M (A : Type) := World -> A * World.

Definition ret {A : Type} (a : A) : M A := fun w => (a, w).

Definition bindM {A B : Type} (m : M A) (k : A -> M B) : M B :=
  fun w => let (a, w') := m w in k a w'.

Definition console_log (data : TaxCalculationRequest) : M unit :=
  fun w => (tt, {| console := console w ++ [data]; clock := clock w |}).

(** [await new Promise(resolve => setTimeout(resolve, ms))]. *)
Definition sleep (ms : Z) : M unit :=
  fun w => (tt, {| console := console w; clock := (clock w + ms)%Z |}).

(** The returned object literal (lines 64-73).  Nothing in the [try] block
    throws, so the [catch] branch is never taken. *)
Definition mock_response (data : TaxCalculationRequest) : jsval :=
  JObject
    [("oldRegime",
       JObject
         [("currentTaxLiability", JNumber (basicSalary data * 0.2)%float);
          ("potentialSavings", JNumber (taxSavingInvestments data * 0.1)%float);
          ("optimizedTaxPayable",
            JNumber (basicSalary data * 0.2 - taxSavingInvestments data * 0.1)%float)]);
     ("newRegime",
       JObject [("optimizedTaxPayable", JNumber (basicSalary data * 0.15)%float)])].

Definition calculateTax (data : TaxCalculationRequest) : M jsval :=
  bindM (console_log data) (fun _ =>
  bindM (sleep 1000) (fun _ =>
  ret (mock_response data))).

(** Member access [v.k]: [None] is the TypeError of reading a property of
    [undefined]; a missing property reads as [undefined]. *)
Definition member (v : jsval) (k : string) : option jsval :=
  match v with
  | JUndefined => None
  | JObject ps => Some (match assoc k ps with Some x => x | None => JUndefined end)
  | JNumber _ | JString _ => Some JUndefined
  end.

Fixpoint member_path (v : jsval) (ks : list string) : option jsval :=
  match ks with
  | [] => Some v
  | k :: rest => match member v k with Some v' => member_path v' rest | None => None end
  end.

Definition keys (v : jsval) : list string :=
  match v with JObject ps => map fst ps | _ => [] end.

(** The accesses TaxResults (part_007, lines 50-66) makes on a result. *)
Definition taxresults_paths : list (list string) :=
  [["old_regime"; "tax"]; ["old_regime"; "taxable_income"];
   ["new_regime"; "tax"]; ["new_regime"; "taxable_income"];
   ["optimal_regime"]].

End Mock.

(* ------------------------------------------------------------------ *)
(** ** The front-end mapping ([mapFormDataToRequest], part_006) and the
       medical-details forms *)

Module Form.
Local Open Scope float_scope.
Local Open Scope string_scope.

Definition number := float.

Inductive Gender := male | female | other.

(** A parsed [Date], as a calendar date; the model fixes the local time
    zone to UTC, so [getFullYear] reads the year of the ISO string. *)
Record JsDate := { year : Z; month : Z; day : Z }.

Definition digit (c : ascii) : option Z :=
  let n := nat_of_ascii c in
  if (Nat.leb 48 n && Nat.leb n 57)%bool then Some (Z.of_nat (n - 48)) else None.

Fixpoint digits_value (s : string) (acc : Z) : option Z :=
  match s with
  | EmptyString => Some acc
  | String c rest =>
      match digit c with
      | Some k => digits_value rest (acc * 10 + k)%Z
      | None => None
      end
  end.

(** [new Date(s)] on the value of an [<input type="date">]: a string
    "YYYY-MM-DD", or "" while the field is empty; [None] is the
    Invalid Date.  Month and day are range-checked only coarsely. *)
Definition parse_date (s : string) : option JsDate :=
  if (String.length s =? 10)%nat then
    match String.get 4 s, String.get 7 s,
          digits_value (substring 0 4 s) 0, digits_value (substring 5 2 s) 0,
          digits_value (substring 8 2 s) 0 with
    | Some c4, Some c7, Some y, Some m, Some d =>
        if (Ascii.eqb c4 "-"%char && Ascii.eqb c7 "-"%char
            && (1 <=? m)%Z && (m <=? 12)%Z && (1 <=? d)%Z && (d <=? 31)%Z)%bool
        then Some {| year := y; month := m; day := d |} else None
    | _, _, _, _, _ => None
    end
  else None.

(** [getFullYear]; [None] is NaN (Invalid Date). *)
Definition getFullYear (d : option JsDate) : option Z := option_map year d.

(** JavaScript subtraction on possibly-NaN integers. *)
Definition sub_nan (a b : option Z) : option Z :=
  match a, b with Some x, Some y => Some (x - y)%Z | _, _ => None end.

(** [x || 0] on a number: [0], [-0] and NaN are falsy. *)
Definition or_zero (x : number) : number :=
  if (PrimFloat.is_nan x || PrimFloat.eqb x 0)%bool then 0%float else x.

(** The form state, as the TaxFormData interface of
    src/src/api/taxCalculator.ts (lines 81-137). *)
Record PersonalInfo := {
  email : string;
  birthDate : string;
  gender : Gender;
  employmentType : string;
  residencyCountry : string;
  hasDependentSeniorParents : bool
}.

Record IncomeDetails := {
  basicSalary : number;
  hraReceived : bool;
  hraAmount : number;
  cityType : string;
  isOwnedHouse : bool
}.

Record InvestmentDetails := {
  taxSavingInvestments : number;
  npsContribution : number;
  healthInsurance : number;
  startup_investments_80iac : number;
  deduction_from_scientific_research : number
}.

Record LoanDetails := {
  hasStudentLoan : bool;
  studentLoanInterest : number;
  hasHousingLoan : bool;
  isSelfOccupied : bool;
  housingLoanInterest : number
}.

Record InvestmentGains := {
  capitalGains : number;
  gainsAmount : number;
  dividends : number;
  investmentType : string;
  digitalAssetsSale : number
}.

Record MedicalDetails := {
  disabilityStatus : string;
  criticalIllnessExpenses : number;
  hasDisabledDependents : bool;
  dependentMedicalExpenses : number
}.

Record TaxFormData := {
  step : Z;
  personalInfo : PersonalInfo;
  incomeDetails : IncomeDetails;
  investmentDetails : InvestmentDetails;
  loanDetails : LoanDetails;
  investmentGains : InvestmentGains;
  medicalDetails : MedicalDetails
}.

(** The request sent to the back end (part_006, lines 165-212); [age] is
    [None] when it is NaN. *)
Record TaxCalculationRequest := {
  income : number;
  age : option Z;
  r_gender : Gender;
  city : string;
  rent : number;
  has_hra : bool;
  basic_salary : number;
  hra_received : number;
  property_self_occupied : bool;
  home_loan_interest : number;
  home_loan_principal_80c : number;
  sec_80ee : bool;
  sec_80eea : bool;
  total_80c_investments : number;
  nps_80ccd_1b : number;
  health_insurance_self_parents : number;
  is_disabled_self : bool;
  is_disabled_dependent : bool;
  severe_disability_self : bool;
  severe_disability_dep : bool;
  critical_illness_bills : number;
  student_loan_interest : number;
  donations_80g : number;
  royalty_income_80rrb : number;
  is_startup_investments : bool;
  r_startup_investments_80iac : number;
  cooperative_society_80p : number;
  number_of_new_employees_80jjaa : number;
  new_employees_wages_80jjaa : number;
  r_deduction_from_scientific_research : number;
  is_exempted_under_80gge : bool;
  savings_interest_80tta : number;
  interest_income_80ttb : number;
  donation_100pct_no_limit : number;
  donation_50pct_no_limit : number;
  donation_100pct_with_limit : number;
  donation_50pct_with_limit : number
}.

(** [mapFormDataToRequest] (part_006, lines 249-293); [currentDate] is the
    [new Date()] of line 251. *)
Definition mapFormDataToRequest (currentDate : JsDate) (formData : TaxFormData)
    : TaxCalculationRequest :=
  let birthDate := parse_date (birthDate (personalInfo formData)) in
  let age := sub_nan (getFullYear (Some currentDate)) (getFullYear birthDate) in
  {| income := basicSalary (incomeDetails formData);
     age := age;
     r_gender := gender (personalInfo formData);
     city := cityType (incomeDetails formData);
     rent := 0%float;
     has_hra := hraReceived (incomeDetails formData);
     basic_salary := basicSalary (incomeDetails formData);
     hra_received := hraAmount (incomeDetails formData);
     property_self_occupied := isSelfOccupied (loanDetails formData);
     home_loan_interest := housingLoanInterest (loanDetails formData);
     home_loan_principal_80c := 0%float;
     sec_80ee := false;
     sec_80eea := false;
     total_80c_investments := taxSavingInvestments (investmentDetails formData);
     nps_80ccd_1b := or_zero (npsContribution (investmentDetails formData));
     health_insurance_self_parents := healthInsurance (investmentDetails formData);
     is_disabled_self :=
       negb (String.eqb (disabilityStatus (medicalDetails formData)) "None");
     is_disabled_dependent := hasDisabledDependents (medicalDetails formData);
     severe_disability_self :=
       String.eqb (disabilityStatus (medicalDetails formData)) "Severe";
     severe_disability_dep := false;
     critical_illness_bills := criticalIllnessExpenses (medicalDetails formData);
     student_loan_interest := studentLoanInterest (loanDetails formData);
     donations_80g := 0%float;
     royalty_income_80rrb := 0%float;
     is_startup_investments := false;
     r_startup_investments_80iac := 0%float;
     cooperative_society_80p := 0%float;
     number_of_new_employees_80jjaa := 0%float;
     new_employees_wages_80jjaa := 0%float;
     r_deduction_from_scientific_research := 0%float;
     is_exempted_under_80gge := false;
     savings_interest_80tta := 0%float;
     interest_income_80ttb := 0%float;
     donation_100pct_no_limit := 0%float;
     donation_50pct_no_limit := 0%float;
     donation_100pct_with_limit := 0%float;
     donation_50pct_with_limit := 0%float |}.

(** The age the spec asks for: whole completed years at [currentDate]. *)
Definition completed_years (currentDate birth : JsDate) : Z :=
  (year currentDate - year birth
   - (if ((month currentDate <? month birth)%Z
          || ((month currentDate =? month birth)%Z && (day currentDate <? day birth)%Z))%bool
      then 1 else 0))%Z.

(** The initial state of src/src/context/TaxFormContext.tsx. *)
Definition defaultFormData : TaxFormData := {|
  step := 1;
  personalInfo := {| email := ""; birthDate := ""; gender := male;
                     employmentType := ""; residencyCountry := "";
                     hasDependentSeniorParents := false |};
  incomeDetails := {| basicSalary := 0; hraReceived := false; hraAmount := 0;
                      cityType := ""; isOwnedHouse := false |};
  investmentDetails := {| taxSavingInvestments := 0; npsContribution := 0;
                          healthInsurance := 0; startup_investments_80iac := 0;
                          deduction_from_scientific_research := 0 |};
  loanDetails := {| hasStudentLoan := false; studentLoanInterest := 0;
                    hasHousingLoan := false; isSelfOccupied := false;
                    housingLoanInterest := 0 |};
  investmentGains := {| capitalGains := 0; gainsAmount := 0; dividends := 0;
                        investmentType := ""; digitalAssetsSale := 0 |};
  medicalDetails := {| disabilityStatus := "None"; criticalIllnessExpenses := 0;
                       hasDisabledDependents := false;
                       dependentMedicalExpenses := 0 |}
|}.

(** The [setFormData] updates of a medical-details form. *)
Inductive MedicalEvent :=
| SelectDisabilityStatus (value : string)
| SetCriticalIllnessExpenses (n : number)
| SetHasDisabledDependents (b : bool)
| SetDependentMedicalExpenses (n : number).

Definition apply_medical_event (m : MedicalDetails) (e : MedicalEvent) : MedicalDetails :=
  match e with
  | SelectDisabilityStatus v =>
      {| disabilityStatus := v; criticalIllnessExpenses := criticalIllnessExpenses m;
         hasDisabledDependents := hasDisabledDependents m;
         dependentMedicalExpenses := dependentMedicalExpenses m |}
  | SetCriticalIllnessExpenses n =>
      {| disabilityStatus := disabilityStatus m; criticalIllnessExpenses := n;
         hasDisabledDependents := hasDisabledDependents m;
         dependentMedicalExpenses := dependentMedicalExpenses m |}
  | SetHasDisabledDependents b =>
      {| disabilityStatus := disabilityStatus m;
         criticalIllnessExpenses := criticalIllnessExpenses m;
         hasDisabledDependents := b;
         dependentMedicalExpenses := dependentMedicalExpenses m |}
  | SetDependentMedicalExpenses n =>
      {| disabilityStatus := disabilityStatus m;
         criticalIllnessExpenses := criticalIllnessExpenses m;
         hasDisabledDependents := hasDisabledDependents m;
         dependentMedicalExpenses := n |}
  end.

Definition with_medical (fd : TaxFormData) (m : MedicalDetails) : TaxFormData :=
  {| step := step fd; personalInfo := personalInfo fd; incomeDetails := incomeDetails fd;
     investmentDetails := investmentDetails fd; loanDetails := loanDetails fd;
     investmentGains := investmentGains fd; medicalDetails := m |}.

(** The [SelectItem] values of the disability-status select: the form of
    part_002 (lines 44-46) and the one of
    src/src/components/tax-calculator/MedicalDetailsForm.tsx (lines 49-51),
    which src/src/pages/Index.tsx renders. *)
Definition items_part_002 : list string := ["None"; "Partial"; "Full"].
Definition items_components : list string := ["None"; "Severe"; "Partial"].

Definition event_allowed (items : list string) (e : MedicalEvent) : bool :=
  match e with
  | SelectDisabilityStatus v => existsb (String.eqb v) items
  | _ => true
  end.

(** States reachable through a medical-details form with the given select
    items; the other forms of the wizard never touch [medicalDetails]. *)
Inductive reachable (items : list string) : TaxFormData -> Prop :=
| reach_default : reachable items defaultFormData
| reach_medical fd e :
    reachable items fd -> event_allowed items e = true ->
    reachable items (with_medical fd (apply_medical_event (medicalDetails fd) e))
| reach_other fd fd' :
    reachable items fd -> medicalDetails fd' = medicalDetails fd ->
    reachable items fd'.

(** The birth-date [onChange] of PersonalInfoForm (part_006, lines 56-61). *)
Definition with_birthDate (fd : TaxFormData) (v : string) : TaxFormData :=
  let p := personalInfo fd in
  {| step := step fd;
     personalInfo := {| email := email p; birthDate := v; gender := gender p;
                        employmentType := employmentType p;
                        residencyCountry := residencyCountry p;
                        hasDependentSeniorParents := hasDependentSeniorParents p |};
     incomeDetails := incomeDetails fd; investmentDetails := investmentDetails fd;
     loanDetails := loanDetails fd; investmentGains := investmentGains fd;
     medicalDetails := medicalDetails fd |}.

(** The state after choosing "Severe" in the form Index.tsx renders. *)
Definition severe_state : TaxFormData :=
  with_medical defaultFormData
    (apply_medical_event (medicalDetails defaultFormData) (SelectDisabilityStatus "Severe")).

End Form.

(* ------------------------------------------------------------------ *)
(** ** The wizard of src/src/pages/Index.tsx *)

(** The page as Index.tsx renders it: the step counter of line 13, the
    form state and result of TaxFormProvider
    (src/src/context/TaxFormContext.tsx), and the forms of
    src/src/components/tax-calculator with their [setFormData] updates. *)
Module App.
Import Form.
Local Open Scope float_scope.
Local Open Scope string_scope.

Inductive Screen :=
| SPersonalInfo | SIncomeDetails | SInvestmentDetails | SLoanDetails
| SInvestmentGains | SMedicalDetails | STaxResults.

(** [renderStep] (Index.tsx, lines 15-59). *)
Definition renderStep (currentStep : Z) : Screen :=
  if (currentStep =? 1)%Z then SPersonalInfo
  else if (currentStep =? 2)%Z then SIncomeDetails
  else if (currentStep =? 3)%Z then SInvestmentDetails
  else if (currentStep =? 4)%Z then SLoanDetails
  else if (currentStep =? 5)%Z then SInvestmentGains
  else if (currentStep =? 6)%Z then SMedicalDetails
  else if (currentStep =? 7)%Z then STaxResults
  else SPersonalInfo.

(** The [onNext] and [onPrevious] props each screen receives; [None] when
    the component has no such button (PersonalInfoForm has no Previous,
    TaxResults no Next). *)
Definition onNext (s : Screen) : option Z :=
  match s with
  | SPersonalInfo => Some 2%Z | SIncomeDetails => Some 3%Z
  | SInvestmentDetails => Some 4%Z | SLoanDetails => Some 5%Z
  | SInvestmentGains => Some 6%Z | SMedicalDetails => Some 7%Z
  | STaxResults => None
  end.

Definition onPrevious (s : Screen) : option Z :=
  match s with
  | SPersonalInfo => None
  | SIncomeDetails => Some 1%Z | SInvestmentDetails => Some 2%Z
  | SLoanDetails => Some 3%Z | SInvestmentGains => Some 4%Z
  | SMedicalDetails => Some 5%Z | STaxResults => Some 6%Z
  end.

(** The [...prev, section: {...}] updates, one per section. *)
Definition set_personalInfo (fd : TaxFormData) (p : PersonalInfo) : TaxFormData :=
  {| step := step fd; personalInfo := p; incomeDetails := incomeDetails fd;
     investmentDetails := investmentDetails fd; loanDetails := loanDetails fd;
     investmentGains := investmentGains fd; medicalDetails := medicalDetails fd |}.

Definition set_incomeDetails (fd : TaxFormData) (i : IncomeDetails) : TaxFormData :=
  {| step := step fd; personalInfo := personalInfo fd; incomeDetails := i;
     investmentDetails := investmentDetails fd; loanDetails := loanDetails fd;
     investmentGains := investmentGains fd; medicalDetails := medicalDetails fd |}.

Definition set_investmentDetails (fd : TaxFormData) (v : InvestmentDetails) : TaxFormData :=
  {| step := step fd; personalInfo := personalInfo fd; incomeDetails := incomeDetails fd;
     investmentDetails := v; loanDetails := loanDetails fd;
     investmentGains := investmentGains fd; medicalDetails := medicalDetails fd |}.

Definition set_loanDetails (fd : TaxFormData) (l : LoanDetails) : TaxFormData :=
  {| step := step fd; personalInfo := personalInfo fd; incomeDetails := incomeDetails fd;
     investmentDetails := investmentDetails fd; loanDetails := l;
     investmentGains := investmentGains fd; medicalDetails := medicalDetails fd |}.

Definition set_investmentGains (fd : TaxFormData) (g : InvestmentGains) : TaxFormData :=
  {| step := step fd; personalInfo := personalInfo fd; incomeDetails := incomeDetails fd;
     investmentDetails := investmentDetails fd; loanDetails := loanDetails fd;
     investmentGains := g; medicalDetails := medicalDetails fd |}.

(** The input handlers.  A number input stores [Number(e.target.value)],
    the event carries that number.  The NPS input of InvestmentDetailsForm
    (line 60) stores the raw string [e.target.value]; the record keeps a
    number there, so the model lets that event store any number. *)
Inductive FieldEvent :=
| SetEmail (v : string)
| SetBirthDate (v : string)
| SetGender (g : Gender)
| SetEmploymentType (v : string)
| SetResidencyCountry (v : string)
| SetHasDependentSeniorParents (b : bool)
| SetBasicSalary (n : number)
| SetCityType (v : string)
| SetHraReceived (b : bool)
| SetHraAmount (n : number)
| SetIsOwnedHouse (b : bool)
| SetTaxSavingInvestments (n : number)
| SetNpsContribution (n : number)
| SetHealthInsurance (n : number)
| SetHasStudentLoan (b : bool)
| SetStudentLoanInterest (n : number)
| SetHasHousingLoan (b : bool)
| SetIsSelfOccupied (b : bool)
| SetHousingLoanInterest (n : number)
| SetCapitalGains (n : number)
| SetGainsAmount (n : number)
| SetDividends (n : number)
| SetInvestmentType (v : string)
| SetDigitalAssetsSale (n : number)
| SetMedical (e : MedicalEvent).

Definition apply_field (fd : TaxFormData) (e : FieldEvent) : TaxFormData :=
  let p := personalInfo fd in
  let i := incomeDetails fd in
  let v := investmentDetails fd in
  let l := loanDetails fd in
  let g := investmentGains fd in
  match e with
  | SetEmail x =>
      set_personalInfo fd {| email := x; birthDate := birthDate p; gender := gender p;
        employmentType := employmentType p; residencyCountry := residencyCountry p;
        hasDependentSeniorParents := hasDependentSeniorParents p |}
  | SetBirthDate x => with_birthDate fd x
  | SetGender x =>
      set_personalInfo fd {| email := email p; birthDate := birthDate p; gender := x;
        employmentType := employmentType p; residencyCountry := residencyCountry p;
        hasDependentSeniorParents := hasDependentSeniorParents p |}
  | SetEmploymentType x =>
      set_personalInfo fd {| email := email p; birthDate := birthDate p; gender := gender p;
        employmentType := x; residencyCountry := residencyCountry p;
        hasDependentSeniorParents := hasDependentSeniorParents p |}
  | SetResidencyCountry x =>
      set_personalInfo fd {| email := email p; birthDate := birthDate p; gender := gender p;
        employmentType := employmentType p; residencyCountry := x;
        hasDependentSeniorParents := hasDependentSeniorParents p |}
  | SetHasDependentSeniorParents x =>
      set_personalInfo fd {| email := email p; birthDate := birthDate p; gender := gender p;
        employmentType := employmentType p; residencyCountry := residencyCountry p;
        hasDependentSeniorParents := x |}
  | SetBasicSalary x =>
      set_incomeDetails fd {| basicSalary := x; hraReceived := hraReceived i;
        hraAmount := hraAmount i; cityType := cityType i; isOwnedHouse := isOwnedHouse i |}
  | SetCityType x =>
      set_incomeDetails fd {| basicSalary := basicSalary i; hraReceived := hraReceived i;
        hraAmount := hraAmount i; cityType := x; isOwnedHouse := isOwnedHouse i |}
  | SetHraReceived checked =>
      (* hraReceived: checked, ...(checked ? {} : { isOwnedHouse: false }) *)
      set_incomeDetails fd {| basicSalary := basicSalary i; hraReceived := checked;
        hraAmount := hraAmount i; cityType := cityType i;
        isOwnedHouse := if checked then isOwnedHouse i else false |}
  | SetHraAmount x =>
      set_incomeDetails fd {| basicSalary := basicSalary i; hraReceived := hraReceived i;
        hraAmount := x; cityType := cityType i; isOwnedHouse := isOwnedHouse i |}
  | SetIsOwnedHouse x =>
      set_incomeDetails fd {| basicSalary := basicSalary i; hraReceived := hraReceived i;
        hraAmount := hraAmount i; cityType := cityType i; isOwnedHouse := x |}
  | SetTaxSavingInvestments x =>
      set_investmentDetails fd {| taxSavingInvestments := x;
        npsContribution := npsContribution v; healthInsurance := healthInsurance v;
        startup_investments_80iac := startup_investments_80iac v;
        deduction_from_scientific_research := deduction_from_scientific_research v |}
  | SetNpsContribution x =>
      set_investmentDetails fd {| taxSavingInvestments := taxSavingInvestments v;
        npsContribution := x; healthInsurance := healthInsurance v;
        startup_investments_80iac := startup_investments_80iac v;
        deduction_from_scientific_research := deduction_from_scientific_research v |}
  | SetHealthInsurance x =>
      set_investmentDetails fd {| taxSavingInvestments := taxSavingInvestments v;
        npsContribution := npsContribution v; healthInsurance := x;
        startup_investments_80iac := startup_investments_80iac v;
        deduction_from_scientific_research := deduction_from_scientific_research v |}
  | SetHasStudentLoan x =>
      set_loanDetails fd {| hasStudentLoan := x; studentLoanInterest := studentLoanInterest l;
        hasHousingLoan := hasHousingLoan l; isSelfOccupied := isSelfOccupied l;
        housingLoanInterest := housingLoanInterest l |}
  | SetStudentLoanInterest x =>
      set_loanDetails fd {| hasStudentLoan := hasStudentLoan l; studentLoanInterest := x;
        hasHousingLoan := hasHousingLoan l; isSelfOccupied := isSelfOccupied l;
        housingLoanInterest := housingLoanInterest l |}
  | SetHasHousingLoan x =>
      set_loanDetails fd {| hasStudentLoan := hasStudentLoan l;
        studentLoanInterest := studentLoanInterest l; hasHousingLoan := x;
        isSelfOccupied := isSelfOccupied l; housingLoanInterest := housingLoanInterest l |}
  | SetIsSelfOccupied x =>
      set_loanDetails fd {| hasStudentLoan := hasStudentLoan l;
        studentLoanInterest := studentLoanInterest l; hasHousingLoan := hasHousingLoan l;
        isSelfOccupied := x; housingLoanInterest := housingLoanInterest l |}
  | SetHousingLoanInterest x =>
      set_loanDetails fd {| hasStudentLoan := hasStudentLoan l;
        studentLoanInterest := studentLoanInterest l; hasHousingLoan := hasHousingLoan l;
        isSelfOccupied := isSelfOccupied l; housingLoanInterest := x |}
  | SetCapitalGains x =>
      set_investmentGains fd {| capitalGains := x; gainsAmount := gainsAmount g;
        dividends := dividends g; investmentType := investmentType g;
        digitalAssetsSale := digitalAssetsSale g |}
  | SetGainsAmount x =>
      set_investmentGains fd {| capitalGains := capitalGains g; gainsAmount := x;
        dividends := dividends g; investmentType := investmentType g;
        digitalAssetsSale := digitalAssetsSale g |}
  | SetDividends x =>
      set_investmentGains fd {| capitalGains := capitalGains g; gainsAmount := gainsAmount g;
        dividends := x; investmentType := investmentType g;
        digitalAssetsSale := digitalAssetsSale g |}
  | SetInvestmentType x =>
      set_investmentGains fd {| capitalGains := capitalGains g; gainsAmount := gainsAmount g;
        dividends := dividends g; investmentType := x;
        digitalAssetsSale := digitalAssetsSale g |}
  | SetDigitalAssetsSale x =>
      set_investmentGains fd {| capitalGains := capitalGains g; gainsAmount := gainsAmount g;
        dividends := dividends g; investmentType := investmentType g;
        digitalAssetsSale := x |}
  | SetMedical m => with_medical fd (apply_medical_event (medicalDetails fd) m)
  end.

(** The [SelectItem] values of the selects. *)
Definition employment_items : list string := ["salaried"; "self-employed"; "business"].
Definition residency_items : list string := ["india"; "other"].
Definition city_items : list string := ["metro"; "non-metro"].
Definition investment_type_items : list string := ["equity"; "debt"; "hybrid"].

Definition in_items (items : list string) (v : string) : bool := existsb (String.eqb v) items.

(** The screen whose form renders the input, and whether the input is on
    screen: hraAmount only while hraReceived, isOwnedHouse only while it is
    off, the loan amounts only while their switch is on, the dependent
    expenses only while hasDisabledDependents.  A select offers its items
    only; an [<input type="date">] yields "" or a "YYYY-MM-DD" string. *)
Definition field_screen (e : FieldEvent) : Screen :=
  match e with
  | SetEmail _ | SetBirthDate _ | SetGender _ | SetEmploymentType _
  | SetResidencyCountry _ | SetHasDependentSeniorParents _ => SPersonalInfo
  | SetBasicSalary _ | SetCityType _ | SetHraReceived _ | SetHraAmount _
  | SetIsOwnedHouse _ => SIncomeDetails
  | SetTaxSavingInvestments _ | SetNpsContribution _ | SetHealthInsurance _ =>
      SInvestmentDetails
  | SetHasStudentLoan _ | SetStudentLoanInterest _ | SetHasHousingLoan _
  | SetIsSelfOccupied _ | SetHousingLoanInterest _ => SLoanDetails
  | SetCapitalGains _ | SetGainsAmount _ | SetDividends _ | SetInvestmentType _
  | SetDigitalAssetsSale _ => SInvestmentGains
  | SetMedical _ => SMedicalDetails
  end.

Definition field_enabled (fd : TaxFormData) (e : FieldEvent) : bool :=
  match e with
  | SetBirthDate x =>
      match parse_date x with Some _ => true | None => String.eqb x "" end
  | SetEmploymentType x => in_items employment_items x
  | SetResidencyCountry x => in_items residency_items x
  | SetCityType x => in_items city_items x
  | SetHraAmount _ => hraReceived (incomeDetails fd)
  | SetIsOwnedHouse _ => negb (hraReceived (incomeDetails fd))
  | SetStudentLoanInterest _ => hasStudentLoan (loanDetails fd)
  | SetIsSelfOccupied _ | SetHousingLoanInterest _ => hasHousingLoan (loanDetails fd)
  | SetInvestmentType x => in_items investment_type_items x
  | SetMedical (SetDependentMedicalExpenses _) =>
      hasDisabledDependents (medicalDetails fd)
  | SetMedical m => event_allowed items_components m
  | _ => true
  end.

(** The [required] inputs of a form: its submit (Next) is blocked while
    one is empty.  Only PersonalInfoForm has required text inputs (email
    and birthDate, lines 51 and 71); the required salary input always
    shows a number.  The browser's check of the email format comes on top
    of this and is left out. *)
Definition required_ok (s : Screen) (fd : TaxFormData) : bool :=
  match s with
  | SPersonalInfo =>
      negb (String.eqb (email (personalInfo fd)) "")
      && negb (String.eqb (birthDate (personalInfo fd)) "")
  | _ => true
  end.

Record AppState := {
  currentStep : Z;
  formData : TaxFormData;
  result : option Mock.jsval;
  console_out : list TaxFormData
}.

Inductive AppEvent :=
| Field (e : FieldEvent)
| Next
| Previous
| Calculate.

Definition app_init : AppState :=
  {| currentStep := 1; formData := defaultFormData; result := None; console_out := [] |}.

Definition goto (st : AppState) (n : Z) : AppState :=
  {| currentStep := n; formData := formData st; result := result st;
     console_out := console_out st |}.

(** One user action on the page; [None] when the page offers no control
    for it.  Calculate is the button of src/src TaxResults (shown while
    [result] is null), whose [handleCalculate] (lines 13-16) only logs the
    form data. *)
Definition app_step (st : AppState) (ev : AppEvent) : option AppState :=
  let s := renderStep (currentStep st) in
  match ev with
  | Field e =>
      if (match field_screen e, s with
          | SPersonalInfo, SPersonalInfo | SIncomeDetails, SIncomeDetails
          | SInvestmentDetails, SInvestmentDetails | SLoanDetails, SLoanDetails
          | SInvestmentGains, SInvestmentGains | SMedicalDetails, SMedicalDetails => true
          | _, _ => false
          end && field_enabled (formData st) e)%bool
      then Some {| currentStep := currentStep st; formData := apply_field (formData st) e;
                   result := result st; console_out := console_out st |}
      else None
  | Next =>
      match onNext s with
      | Some n => if required_ok s (formData st) then Some (goto st n) else None
      | None => None
      end
  | Previous => option_map (goto st) (onPrevious s)
  | Calculate =>
      match s, result st with
      | STaxResults, None =>
          Some {| currentStep := currentStep st; formData := formData st;
                  result := result st; console_out := (console_out st ++ [formData st])%list |}
      | _, _ => None
      end
  end.

Inductive app_reachable : AppState -> Prop :=
| app_reach_init : app_reachable app_init
| app_reach_step st ev st' :
    app_reachable st -> app_step st ev = Some st' -> app_reachable st'.

Fixpoint run (st : AppState) (evs : list AppEvent) : option AppState :=
  match evs with
  | [] => Some st
  | ev :: rest => match app_step st ev with Some st' => run st' rest | None => None end
  end.

End App.

(* ------------------------------------------------------------------ *)
(** ** The API layer of part_006 and the TaxResults of part_007 *)

(** [calculateTax(formData: any)] of part_006 takes an untyped object;
    part_007's TaxResults passes it the spread of the form sections.  The
    model works on JavaScript values. *)
Module Wire.
Import Form.
Local Open Scope float_scope.
Local Open Scope string_scope.

Inductive value :=
| VUndefined
| VBool (b : bool)
| VNumber (x : number)
| VString (s : string)
| VObject (fields : list (string * value)).

(** [v.k]; [None] is the TypeError of reading a property of undefined.
    Own properties only: the form data holds plain objects, strings and
    numbers, and mapFormDataToRequest reads no inherited property. *)
Definition get (v : value) (k : string) : option value :=
  match v with
  | VUndefined => None
  | VObject fs => Some (match assoc k fs with Some x => x | None => VUndefined end)
  | _ => Some VUndefined
  end.

(** [{...acc, k: x}]: an existing key keeps its place, a new one is added
    last. *)
Fixpoint set_field (fs : list (string * value)) (k : string) (x : value)
    : list (string * value) :=
  match fs with
  | [] => [(k, x)]
  | (k', y) :: rest =>
      if String.eqb k k' then (k', x) :: rest else (k', y) :: set_field rest k x
  end.

(** [...v] inside an object literal; spreading a primitive or undefined
    adds nothing. *)
Definition spread (acc : list (string * value)) (v : value) : list (string * value) :=
  match v with
  | VObject fs => fold_left (fun a kv => set_field a (fst kv) (snd kv)) fs acc
  | _ => acc
  end.

(** Truthiness, [x || 0] and [x === s] for a string literal [s]. *)
Definition truthy (v : value) : bool :=
  match v with
  | VUndefined => false
  | VBool b => b
  | VNumber x => negb (PrimFloat.is_nan x || PrimFloat.eqb x 0)
  | VString s => negb (String.eqb s "")
  | VObject _ => true
  end.

Definition js_or_zero (v : value) : value := if truthy v then v else VNumber 0.

Definition strict_eq_string (v : value) (s : string) : bool :=
  match v with VString t => String.eqb t s | _ => false end.

(** Integers as JavaScript numbers (exact below 2^53). *)
Definition Z_to_float (z : Z) : number :=
  if (z <? 0)%Z then PrimFloat.opp (PrimFloat.of_uint63 (Uint63.of_Z (- z)))
  else PrimFloat.of_uint63 (Uint63.of_Z z).

Definition nan_or_int (a : option Z) : value :=
  match a with Some z => VNumber (Z_to_float z) | None => VNumber PrimFloat.nan end.

(** [new Date(v)]: the form stores the birth date as a string; any other
    value (undefined on a missing key) gives the Invalid Date. *)
Definition new_Date (v : value) : option JsDate :=
  match v with VString s => parse_date s | _ => None end.

Definition gender_str (g : Gender) : string :=
  match g with male => "male" | female => "female" | other => "other" end.

(** The form state as the JavaScript object it is. *)
Definition encode_personalInfo (p : PersonalInfo) : value :=
  VObject [("email", VString (email p)); ("birthDate", VString (birthDate p));
           ("gender", VString (gender_str (gender p)));
           ("employmentType", VString (employmentType p));
           ("residencyCountry", VString (residencyCountry p));
           ("hasDependentSeniorParents", VBool (hasDependentSeniorParents p))].

Definition encode_incomeDetails (i : IncomeDetails) : value :=
  VObject [("basicSalary", VNumber (basicSalary i)); ("hraReceived", VBool (hraReceived i));
           ("hraAmount", VNumber (hraAmount i)); ("cityType", VString (cityType i));
           ("isOwnedHouse", VBool (isOwnedHouse i))].

Definition encode_investmentDetails (v : InvestmentDetails) : value :=
  VObject [("taxSavingInvestments", VNumber (taxSavingInvestments v));
           ("npsContribution", VNumber (npsContribution v));
           ("healthInsurance", VNumber (healthInsurance v));
           ("startup_investments_80iac", VNumber (startup_investments_80iac v));
           ("deduction_from_scientific_research",
              VNumber (deduction_from_scientific_research v))].

Definition encode_loanDetails (l : LoanDetails) : value :=
  VObject [("hasStudentLoan", VBool (hasStudentLoan l));
           ("studentLoanInterest", VNumber (studentLoanInterest l));
           ("hasHousingLoan", VBool (hasHousingLoan l));
           ("isSelfOccupied", VBool (isSelfOccupied l));
           ("housingLoanInterest", VNumber (housingLoanInterest l))].

Definition encode_investmentGains (g : InvestmentGains) : value :=
  VObject [("capitalGains", VNumber (capitalGains g)); ("gainsAmount", VNumber (gainsAmount g));
           ("dividends", VNumber (dividends g)); ("investmentType", VString (investmentType g));
           ("digitalAssetsSale", VNumber (digitalAssetsSale g))].

Definition encode_medicalDetails (m : MedicalDetails) : value :=
  VObject [("disabilityStatus", VString (disabilityStatus m));
           ("criticalIllnessExpenses", VNumber (criticalIllnessExpenses m));
           ("hasDisabledDependents", VBool (hasDisabledDependents m));
           ("dependentMedicalExpenses", VNumber (dependentMedicalExpenses m))].

Definition encode_form (fd : TaxFormData) : value :=
  VObject [("step", VNumber (Z_to_float (step fd)));
           ("personalInfo", encode_personalInfo (personalInfo fd));
           ("incomeDetails", encode_incomeDetails (incomeDetails fd));
           ("investmentDetails", encode_investmentDetails (investmentDetails fd));
           ("loanDetails", encode_loanDetails (loanDetails fd));
           ("investmentGains", encode_investmentGains (investmentGains fd));
           ("medicalDetails", encode_medicalDetails (medicalDetails fd))].

(** The argument of [calculateTax] in part_007's handleCalculate
    (lines 18-25). *)
Definition spread_sections (fd : TaxFormData) : value :=
  VObject (fold_left spread
    [encode_personalInfo (personalInfo fd); encode_incomeDetails (incomeDetails fd);
     encode_investmentDetails (investmentDetails fd); encode_loanDetails (loanDetails fd);
     encode_investmentGains (investmentGains fd); encode_medicalDetails (medicalDetails fd)]
    []).

Notation "'let?' x := m 'in' k" :=
  (match m with Some x => k | None => None end) (at level 200, x name, right associativity).

(** [mapFormDataToRequest(formData: any)] (part_006, lines 249-293) on a
    JavaScript value; [currentDate] is [new Date()]. *)
Definition mapFormDataToRequest_any (currentDate : JsDate) (formData : value) : option value :=
  let? pI := get formData "personalInfo" in
  let? bd := get pI "birthDate" in
  let birth := new_Date bd in
  let age := sub_nan (getFullYear (Some currentDate)) (getFullYear birth) in
  let? inc := get formData "incomeDetails" in
  let? inv := get formData "investmentDetails" in
  let? loan := get formData "loanDetails" in
  let? med := get formData "medicalDetails" in
  let? basicSalary := get inc "basicSalary" in
  let? gender := get pI "gender" in
  let? cityType := get inc "cityType" in
  let? hraReceived := get inc "hraReceived" in
  let? hraAmount := get inc "hraAmount" in
  let? isSelfOccupied := get loan "isSelfOccupied" in
  let? housingLoanInterest := get loan "housingLoanInterest" in
  let? taxSavingInvestments := get inv "taxSavingInvestments" in
  let? npsContribution := get inv "npsContribution" in
  let? healthInsurance := get inv "healthInsurance" in
  let? disabilityStatus := get med "disabilityStatus" in
  let? hasDisabledDependents := get med "hasDisabledDependents" in
  let? criticalIllnessExpenses := get med "criticalIllnessExpenses" in
  let? studentLoanInterest := get loan "studentLoanInterest" in
  Some (VObject [
    ("income", basicSalary); ("age", nan_or_int age); ("gender", gender);
    ("city", cityType); ("rent", VNumber 0); ("has_hra", hraReceived);
    ("basic_salary", basicSalary); ("hra_received", hraAmount);
    ("property_self_occupied", isSelfOccupied); ("home_loan_interest", housingLoanInterest);
    ("home_loan_principal_80c", VNumber 0); ("sec_80ee", VBool false);
    ("sec_80eea", VBool false); ("total_80c_investments", taxSavingInvestments);
    ("nps_80ccd_1b", js_or_zero npsContribution);
    ("health_insurance_self_parents", healthInsurance);
    ("is_disabled_self", VBool (negb (strict_eq_string disabilityStatus "None")));
    ("is_disabled_dependent", hasDisabledDependents);
    ("severe_disability_self", VBool (strict_eq_string disabilityStatus "Severe"));
    ("severe_disability_dep", VBool false);
    ("critical_illness_bills", criticalIllnessExpenses);
    ("student_loan_interest", studentLoanInterest);
    ("donations_80g", VNumber 0); ("royalty_income_80rrb", VNumber 0);
    ("is_startup_investments", VBool false); ("startup_investments_80iac", VNumber 0);
    ("cooperative_society_80p", VNumber 0); ("number_of_new_employees_80jjaa", VNumber 0);
    ("new_employees_wages_80jjaa", VNumber 0);
    ("deduction_from_scientific_research", VNumber 0);
    ("is_exempted_under_80gge", VBool false); ("savings_interest_80tta", VNumber 0);
    ("interest_income_80ttb", VNumber 0); ("donation_100pct_no_limit", VNumber 0);
    ("donation_50pct_no_limit", VNumber 0); ("donation_100pct_with_limit", VNumber 0);
    ("donation_50pct_with_limit", VNumber 0)]).

(** The typed request of [Form] as the object sent. *)
Definition encode_request (r : TaxCalculationRequest) : value :=
  VObject [
    ("income", VNumber (income r)); ("age", nan_or_int (age r));
    ("gender", VString (gender_str (r_gender r))); ("city", VString (city r));
    ("rent", VNumber (rent r)); ("has_hra", VBool (has_hra r));
    ("basic_salary", VNumber (basic_salary r)); ("hra_received", VNumber (hra_received r));
    ("property_self_occupied", VBool (property_self_occupied r));
    ("home_loan_interest", VNumber (home_loan_interest r));
    ("home_loan_principal_80c", VNumber (home_loan_principal_80c r));
    ("sec_80ee", VBool (sec_80ee r)); ("sec_80eea", VBool (sec_80eea r));
    ("total_80c_investments", VNumber (total_80c_investments r));
    ("nps_80ccd_1b", VNumber (nps_80ccd_1b r));
    ("health_insurance_self_parents", VNumber (health_insurance_self_parents r));
    ("is_disabled_self", VBool (is_disabled_self r));
    ("is_disabled_dependent", VBool (is_disabled_dependent r));
    ("severe_disability_self", VBool (severe_disability_self r));
    ("severe_disability_dep", VBool (severe_disability_dep r));
    ("critical_illness_bills", VNumber (critical_illness_bills r));
    ("student_loan_interest", VNumber (student_loan_interest r));
    ("donations_80g", VNumber (donations_80g r));
    ("royalty_income_80rrb", VNumber (royalty_income_80rrb r));
    ("is_startup_investments", VBool (is_startup_investments r));
    ("startup_investments_80iac", VNumber (r_startup_investments_80iac r));
    ("cooperative_society_80p", VNumber (cooperative_society_80p r));
    ("number_of_new_employees_80jjaa", VNumber (number_of_new_employees_80jjaa r));
    ("new_employees_wages_80jjaa", VNumber (new_employees_wages_80jjaa r));
    ("deduction_from_scientific_research", VNumber (r_deduction_from_scientific_research r));
    ("is_exempted_under_80gge", VBool (is_exempted_under_80gge r));
    ("savings_interest_80tta", VNumber (savings_interest_80tta r));
    ("interest_income_80ttb", VNumber (interest_income_80ttb r));
    ("donation_100pct_no_limit", VNumber (donation_100pct_no_limit r));
    ("donation_50pct_no_limit", VNumber (donation_50pct_no_limit r));
    ("donation_100pct_with_limit", VNumber (donation_100pct_with_limit r));
    ("donation_50pct_with_limit", VNumber (donation_50pct_with_limit r))].

(** What can be thrown, what [fetch] can answer, and the observable
    effects: console output and requests sent. *)
Inductive exn := TypeError | SyntaxError | Error (message : string).

(** [fetch] rejects with a TypeError on a network failure; [json] is [None]
    when the body is not JSON ([response.json()] rejects with a
    SyntaxError). *)
Inductive FetchResult :=
| NetworkFailure
| Response (ok : bool) (json : option value).

Inductive Effect :=
| ConsoleLog (label : string) (v : value)
| ConsoleError (label : string) (e : exn)
| Fetch (url : string) (method : string) (body : value).

Inductive Outcome := Returned (v : value) | Threw (e : exn).

Definition api_url : string := "http://localhost:5000/api/calculateTax".

Definition fail_with (eff : list Effect) (e : exn) : Outcome * list Effect :=
  (Threw e, (eff ++ [ConsoleError "Error calculating tax:" e])%list).

(** [calculateTax] (part_006, lines 295-320); [network] answers the POST
    for a given JSON body ([JSON.stringify(requestData)]). *)
Definition calculateTax (currentDate : JsDate) (network : value -> FetchResult)
    (formData : value) : Outcome * list Effect :=
  match mapFormDataToRequest_any currentDate formData with
  | None => fail_with [] TypeError
  | Some requestData =>
      let eff := [ConsoleLog "Tax calculation request data:" requestData;
                  Fetch api_url "POST" requestData] in
      match network requestData with
      | NetworkFailure => fail_with eff TypeError
      | Response ok json =>
          if negb ok then fail_with eff (Error "Failed to calculate tax")
          else match json with
               | None => fail_with eff SyntaxError
               | Some data => (Returned data, (eff ++ [ConsoleLog "Tax calculation response:" data])%list)
               end
      end
  end.

Definition requests_sent (eff : list Effect) : list value :=
  flat_map (fun e => match e with Fetch _ _ b => [b] | _ => [] end) eff.

(** The state of part_007's TaxResults: the context's [result], its own
    [isCalculating], the toasts shown and the effects so far. *)
Inductive Toast := ToastSuccess (msg : string) | ToastError (msg : string).

Record ResultsState := {
  result : option value;
  isCalculating : bool;
  toasts : list Toast;
  effects : list Effect
}.

(** [setIsCalculating(true)], before the [await]. *)
Definition calc_start (st : ResultsState) : ResultsState :=
  {| result := result st; isCalculating := true; toasts := toasts st; effects := effects st |}.

(** The rest of [handleCalculate] (part_007, lines 15-34) once the awaited
    call has settled; [calc] is the imported [calculateTax]. *)
Definition calc_finish (calc : value -> Outcome * list Effect) (fd : TaxFormData)
    (st : ResultsState) : ResultsState :=
  let (o, eff) := calc (spread_sections fd) in
  match o with
  | Returned r =>
      {| result := Some r; isCalculating := false;
         toasts := (toasts st ++ [ToastSuccess "Tax calculation completed successfully"])%list;
         effects := (effects st ++ eff)%list |}
  | Threw e =>
      {| result := result st; isCalculating := false;
         toasts := (toasts st ++ [ToastError "Failed to calculate tax. Please try again."])%list;
         effects := (effects st ++ eff ++ [ConsoleError "Tax calculation error:" e])%list |}
  end.

Definition handleCalculate (calc : value -> Outcome * list Effect) (fd : TaxFormData)
    (st : ResultsState) : ResultsState :=
  calc_finish calc fd (calc_start st).

(** The part of the view that depends on the state (lines 45-81): the
    results, or the Calculate button with its [disabled] flag and label.
    [.toLocaleString()] on undefined throws a TypeError. *)
Inductive View :=
| ShowResults (old_tax old_taxable new_tax new_taxable optimal : value)
| ShowButton (disabled : bool) (label : string)
| RenderError (e : exn).

Definition call_toLocaleString (v : option value) : option value :=
  match v with Some VUndefined | None => None | Some x => Some x end.

Definition render (st : ResultsState) : View :=
  match result st with
  | Some r =>
      if truthy r then
        match call_toLocaleString (let? o := get r "old_regime" in get o "tax"),
              call_toLocaleString (let? o := get r "old_regime" in get o "taxable_income"),
              call_toLocaleString (let? n := get r "new_regime" in get n "tax"),
              call_toLocaleString (let? n := get r "new_regime" in get n "taxable_income"),
              get r "optimal_regime" with
        | Some a, Some b, Some c, Some d, Some e => ShowResults a b c d e
        | _, _, _, _, _ => RenderError TypeError
        end
      else ShowButton (isCalculating st)
             (if isCalculating st then "Calculating..." else "Calculate Tax")
  | None =>
      ShowButton (isCalculating st)
        (if isCalculating st then "Calculating..." else "Calculate Tax")
  end.

End Wire.

(* ================================================================== *)
(** * Theorems *)

(* ------------------------------------------------------------------ *)
(** ** Engine: registry *)

Module EngineFacts.
Import Engine.
Local Open Scope string_scope.
Local Open Scope Q_scope.

Lemma rate_ok_spec (r : Q) : rate_ok r = true -> 0 <= r <= 1.
Proof.
  unfold rate_ok; intros H; apply andb_true_iff in H as [H1 H2].
  split; apply Qle_bool_iff; assumption.
Qed.

Lemma above_spec (lower : option Q) (b : Q) :
  above lower b = true -> forall a, lower = Some a -> a < b.
Proof.
  destruct lower as [a|]; simpl; intros H a' E; inversion E; subst.
  unfold Qlt_bool in H. apply negb_true_iff in H.
  apply Qnot_le_lt; intros Hle; apply Qle_bool_iff in Hle; congruence.
Qed.

Lemma slabs_ok_sound (l : list Slab) : forall lower,
  slabs_ok_from lower l = true ->
  exists bs, map limit l = (map Some bs ++ [None])%list /\ Sorted Qlt bs /\
             (forall a, lower = Some a -> HdRel Qlt a bs) /\
             Forall (fun s => 0 <= rate s <= 1) l.
Proof.
  induction l as [|s rest IH]; intros lower H; simpl in H; [discriminate|].
  destruct (limit s) as [b|] eqn:Hl; destruct rest as [|s' rest'].
  - discriminate.
  - apply andb_true_iff in H as [H Hrest]; apply andb_true_iff in H as [Hab Hr].
    destruct (IH (Some b) Hrest) as (bs & Hmap & Hsort & Hhd & Hrates).
    exists (b :: bs); split;
      [transitivity (limit s :: map limit (s' :: rest')); [reflexivity | rewrite Hl, Hmap; reflexivity]|].
    split; [constructor; [assumption | apply Hhd; reflexivity]|].
    split; [intros a E; constructor; apply (above_spec lower b Hab a E)|].
    constructor; [apply rate_ok_spec; assumption | assumption].
  - exists []; split; [simpl; rewrite Hl; reflexivity|].
    split; [constructor|]. split; [intros; constructor|].
    constructor; [apply rate_ok_spec; assumption | constructor].
  - discriminate.
Qed.

Lemma tiers_ok_sound (l : list (Q * Q)) : forall lower,
  tiers_ok_from lower l = true ->
  Sorted Qlt (map fst l) /\ (forall a, lower = Some a -> HdRel Qlt a (map fst l)) /\
  Forall (fun t => 0 <= snd t <= 1) l.
Proof.
  induction l as [|[t r] rest IH]; intros lower H; simpl in *.
  - repeat split; constructor.
  - apply andb_true_iff in H as [H Hrest]; apply andb_true_iff in H as [Hab Hr].
    destruct (IH (Some t) Hrest) as (Hsort & Hhd & Hrates).
    split; [constructor; [assumption | apply Hhd; reflexivity]|].
    split; [intros a E; constructor; apply (above_spec lower t Hab a E)|].
    constructor; [apply rate_ok_spec; assumption | assumption].
Qed.

Lemma forallb_slabs_sound (l : list (string * list Slab)) :
  forallb (fun p => slabs_ok_from None (snd p)) l = true ->
  Forall (fun p => slabs_wf (snd p)) l.
Proof.
  intros H; apply Forall_forall; intros p Hin.
  apply (proj1 (forallb_forall _ _) H) in Hin.
  destruct (slabs_ok_sound _ _ Hin) as (bs & Hm & Hs & _ & Hr).
  exists bs; auto.
Qed.

Lemma load_regime_sound (r : RawRegime) (reg : Regime) :
  load_regime r = Ok reg -> raw_regime_wf r /\ regime_wf reg /\
  slabSets reg = raw_slabsets r.
Proof.
  unfold load_regime, bind.
  destruct (tiers_of_raw (raw_surcharge r)) as [tiers|e] eqn:Ht; [|discriminate].
  destruct (forallb _ (raw_slabsets r) && tiers_ok_from None tiers && rate_ok (raw_cess r))
    eqn:Hc; [|discriminate].
  intros E; inversion E; subst; clear E.
  apply andb_true_iff in Hc as [Hc Hcess]; apply andb_true_iff in Hc as [Hs Hti].
  pose proof (forallb_slabs_sound _ Hs) as HS.
  destruct (tiers_ok_sound _ _ Hti) as (Hsort & _ & Hrates).
  pose proof (rate_ok_spec _ Hcess) as HC.
  split; [split; [assumption | exists tiers; auto]|].
  split; [unfold regime_wf; simpl; auto | reflexivity].
Qed.

Lemma load_regime_error (r : RawRegime) (e : RuleError) :
  load_regime r = Err e -> e = InvalidRuleData.
Proof.
  unfold load_regime, bind.
  assert (Ht : forall l e', tiers_of_raw l = Err e' -> e' = InvalidRuleData).
  { induction l as [|x rest IH]; simpl; intros e' H; [discriminate|].
    destruct x; simpl in H; [|congruence].
    destruct (tiers_of_raw rest) eqn:E; simpl in H; [discriminate|].
    inversion H; subst; apply IH; reflexivity. }
  destruct (tiers_of_raw (raw_surcharge r)) eqn:E.
  - destruct (_ && _ && _); congruence.
  - intros H; inversion H; subst; eapply Ht; eassumption.
Qed.

Lemma load_fiscal_year_sound (raw : RawFiscalYear) (fy : FiscalYearRules) :
  load_fiscal_year raw = Ok fy -> raw_fy_wf raw /\ rules_wf fy.
Proof.
  unfold load_fiscal_year, bind.
  destruct (load_regime (raw_old_regime raw)) as [o|] eqn:Ho; [|discriminate].
  destruct (load_regime (raw_new_regime raw)) as [n|] eqn:Hn; [|discriminate].
  intros E; inversion E; subst; clear E.
  destruct (load_regime_sound _ _ Ho) as (Ro & Wo & _).
  destruct (load_regime_sound _ _ Hn) as (Rn & Wn & _).
  split; split; assumption.
Qed.

Lemma load_fiscal_year_error (raw : RawFiscalYear) (e : RuleError) :
  load_fiscal_year raw = Err e -> e = InvalidRuleData.
Proof.
  unfold load_fiscal_year, bind.
  destruct (load_regime (raw_old_regime raw)) eqn:Ho;
    [destruct (load_regime (raw_new_regime raw)) eqn:Hn|].
  - discriminate.
  - intros H; inversion H; subst; eapply load_regime_error; eassumption.
  - intros H; inversion H; subst; eapply load_regime_error; eassumption.
Qed.

Lemma load_rules_outcome (table : list (string * RawFiscalYear)) :
  (exists reg, load_rules table = Ok reg) \/ load_rules table = Err InvalidRuleData.
Proof.
  induction table as [|[y raw] rest IH]; simpl; [left; eexists; reflexivity|].
  unfold bind at 1.
  destruct (load_fiscal_year raw) as [r|e] eqn:Hr.
  - destruct IH as [[reg Hreg] | Herr]; rewrite ?Hreg, ?Herr; simpl.
    + left; eexists; reflexivity.
    + right; reflexivity.
  - right; rewrite (load_fiscal_year_error _ _ Hr); reflexivity.
Qed.

Lemma load_rules_sound (table : list (string * RawFiscalYear)) (reg : Registry) :
  load_rules table = Ok reg ->
  (forall y raw, In (y, raw) table -> raw_fy_wf raw) /\
  (forall y fy, assoc y reg = Some fy -> rules_wf fy).
Proof.
  revert reg; induction table as [|[y raw] rest IH]; intros reg H; simpl in H.
  - inversion H; subst; split; [intros ? ? [] | intros ? ? E; discriminate].
  - unfold bind in H.
    destruct (load_fiscal_year raw) as [r|] eqn:Hr; [|discriminate].
    destruct (load_rules rest) as [reg'|] eqn:Hrest; [|discriminate].
    inversion H; subst; clear H.
    destruct (load_fiscal_year_sound _ _ Hr) as [Wraw Wr].
    destruct (IH reg' eq_refl) as [IH1 IH2].
    split.
    + intros y' raw' [E|Hin]; [inversion E; subst; assumption | eapply IH1; eassumption].
    + intros y' fy; simpl; destruct (String.eqb y' y).
      * intros E; inversion E; subst; assumption.
      * apply IH2.
Qed.

End EngineFacts.

(* ------------------------------------------------------------------ *)
(** ** Engine: pipeline *)

Module PipelineFacts.
Import Engine.
Local Open Scope string_scope.
Local Open Scope Q_scope.

Lemma Qplus_nonneg (a b : Q) : 0 <= a -> 0 <= b -> 0 <= a + b.
Proof.
  intros Ha Hb; rewrite <- (Qplus_0_l 0); apply Qplus_le_compat; assumption.
Qed.

Lemma highest_met_tier_in (totalIncome : Q) (l : list (Q * Q)) :
  forall acc t,
  fold_left (fun acc t =>
               if Qle_bool (fst t) totalIncome then
                 match acc with
                 | Some b => if Qle_bool (fst b) (fst t) then Some t else acc
                 | None => Some t
                 end
               else acc) l acc = Some t -> acc = Some t \/ In t l.
Proof.
  induction l as [|x rest IH]; simpl; intros acc t H; [left; assumption|].
  destruct (IH _ _ H) as [E|Hin]; [|right; right; assumption].
  destruct (Qle_bool (fst x) totalIncome); [|left; assumption].
  destruct acc as [b|].
  - destruct (Qle_bool (fst b) (fst x)); [|left; assumption].
    inversion E; subst; right; left; reflexivity.
  - inversion E; subst; right; left; reflexivity.
Qed.

Lemma surchargeRate_nonneg (totalIncome : Q) (tiers : list (Q * Q)) :
  Forall (fun t => 0 <= snd t <= 1) tiers -> 0 <= surchargeRate totalIncome tiers.
Proof.
  intros Hall; unfold surchargeRate, highest_met_tier.
  destruct (fold_left _ tiers None) as [t|] eqn:E; [|apply Qle_refl].
  destruct (highest_met_tier_in _ _ _ _ E) as [D|Hin]; [discriminate|].
  exact (proj1 (proj1 (Forall_forall _ _) Hall t Hin)).
Qed.

Lemma applyRebate_nonneg (fy : FiscalYearRules) (taxable base : Q) :
  taxable <= rebate_incomeThreshold fy -> 0 <= applyRebate fy taxable base.
Proof.
  intros H; unfold applyRebate.
  apply Qle_bool_iff in H; rewrite H; apply Q.le_max_l.
Qed.

Lemma applySurchargeAndCess_nonneg (base total cess : Q) (tiers : list (Q * Q)) :
  0 <= base -> Forall (fun t => 0 <= snd t <= 1) tiers -> 0 <= cess ->
  0 <= applySurchargeAndCess base total tiers cess.
Proof.
  intros Hb Ht Hc; unfold applySurchargeAndCess.
  apply Qmult_le_0_compat.
  - apply Qplus_nonneg; [assumption|].
    apply Qmult_le_0_compat; [assumption | apply surchargeRate_nonneg; assumption].
  - apply Qplus_nonneg; [discriminate | assumption].
Qed.

Lemma regimeTax_below_threshold_nonneg (fy : FiscalYearRules) (r : Regime)
    (category : string) (taxable t : Q) :
  regime_wf r -> taxable <= rebate_incomeThreshold fy ->
  regimeTax fy r category taxable = Some t -> 0 <= t.
Proof.
  intros (_ & _ & Htiers & Hcess0 & _) Hle; unfold regimeTax.
  destruct (assoc category (slabSets r)) as [slabs|]; [|discriminate].
  intros E; inversion E; subst; clear E.
  apply applySurchargeAndCess_nonneg; [apply applyRebate_nonneg | |]; assumption.
Qed.

End PipelineFacts.

(* ------------------------------------------------------------------ *)
(** ** Claims on the engine *)

Import Engine.
Local Open Scope string_scope.

(** C1: for 2023-24, general category, taxable income 600,000, the old
    regime's pipeline gives slab tax 32,500 on the general slabs
    [{250000,0%},{500000,5%},{1000000,20%},{null,30%}], no rebate
    (600,000 exceeds the 500,000 threshold), no surcharge tier, and a
    final tax of exactly 33,800 after the 4% cess. *)
Theorem C1_scenario_2023_24_600000 :
  exists fy slabs t,
    load_fiscal_year fy_2023_24 = Ok fy /\
    selectCategory 45 = "general"%string /\
    assoc "general" (slabSets (old_regime fy)) = Some slabs /\
    map (fun s => (limit s, rate s)) slabs =
      [(Some 250000, 0.0); (Some 500000, 0.05); (Some 1000000, 0.20); (None, 0.30)]%Q /\
    (computeSlabTax 600000 slabs == 32500)%Q /\
    (applyRebate fy 600000 32500 == 32500)%Q /\
    (surchargeRate 600000 (surchargeTiers (old_regime fy)) == 0)%Q /\
    (cessRate (old_regime fy) == 0.04)%Q /\
    regimeTax fy (old_regime fy) "general" 600000 = Some t /\ (t == 33800)%Q.
Proof.
  eexists; eexists; eexists.
  split; [reflexivity|]. split; [reflexivity|]. split; [reflexivity|].
  split; [reflexivity|].
  repeat split; vm_compute; reflexivity.
Qed.

(** C2: the registry fails fast.  Loading a table always yields a registry
    or [InvalidRuleData]; a table with a year whose slab set is not
    well formed (bounds not strictly increasing, last bound not
    unbounded, a rate outside [0,1]) or whose surcharge tiers or cess are
    malformed is refused with [InvalidRuleData]; after a refused load no
    request is served (every request gets the load error); every rule set
    of an accepted registry has strictly increasing slab bounds ending
    unbounded, strictly increasing surcharge thresholds and rates in
    [0,1].  The shipped table's 2025-26 entry (empty slab lists) and
    2024-25 entry (unkeyed surcharge entry) are each refused, so the
    shipped table as a whole is refused. *)
Theorem C2_registry_fail_fast :
  (forall table,
      (exists reg, load_rules table = Ok reg) \/ load_rules table = Err InvalidRuleData) /\
  (forall table y raw,
      In (y, raw) table -> ~ raw_fy_wf raw ->
      load_rules table = Err InvalidRuleData) /\
  (forall table e,
      load_rules table = Err e ->
      forall year category oldTaxable newTaxable,
        serve table year category oldTaxable newTaxable = Err e) /\
  (forall table reg year fy,
      load_rules table = Ok reg -> getRules reg year = Ok fy -> rules_wf fy) /\
  load_fiscal_year fy_2025_26 = Err InvalidRuleData /\
  load_fiscal_year fy_2024_25 = Err InvalidRuleData /\
  load_rules tax_rules_table = Err InvalidRuleData.
Proof.
  split; [exact EngineFacts.load_rules_outcome|].
  split.
  { intros table y raw Hin Hbad.
    destruct (EngineFacts.load_rules_outcome table) as [[reg Hreg] | Herr]; [|exact Herr].
    exfalso; apply Hbad.
    exact (proj1 (EngineFacts.load_rules_sound _ _ Hreg) y raw Hin). }
  split.
  { intros table e He year category oldTaxable newTaxable.
    unfold serve; rewrite He; reflexivity. }
  split.
  { intros table reg year fy Hreg Hget.
    unfold getRules in Hget.
    destruct (assoc year reg) as [r|] eqn:E; [|discriminate].
    inversion Hget; subst.
    exact (proj2 (EngineFacts.load_rules_sound _ _ Hreg) year fy E). }
  repeat split; vm_compute; reflexivity.
Qed.

(** Witness for C2: the shipped 2023-24 year alone loads, every one of
    its rule sets satisfies the invariant, and the shipped table is
    refused because its 2025-26 entry is malformed. *)
Lemma C2_registry_fail_fast_witness :
  (exists fy, load_fiscal_year fy_2023_24 = Ok fy /\ rules_wf fy) /\
  serve tax_rules_table "2023-24" "general" 600000 600000 = Err InvalidRuleData.
Proof.
  destruct C2_registry_fail_fast as (_ & Hrej & Hserve & Hok & H2025 & _ & _).
  split.
  - eexists; split; [vm_compute; reflexivity|].
    eapply (Hok [("2023-24", fy_2023_24)] _ "2023-24"); vm_compute; reflexivity.
  - apply (Hserve tax_rules_table InvalidRuleData).
    apply (Hrej tax_rules_table "2025-26" fy_2025_26).
    + simpl; right; right; left; reflexivity.
    + intros [(Hs & _) _].
      apply Forall_inv in Hs; simpl in Hs.
      destruct Hs as (bs & Hm & _).
      destruct bs; discriminate.
Defined.

(** C3: for every rule set the registry accepts, every regime of it, every
    category and every taxable income at or below the rebate income
    threshold, the final tax of the pipeline is at least 0 (the rebate is
    [min(limit, tax)] and the post-rebate tax is floored at 0). *)
Theorem C3_rebate_nonnegative (raw : RawFiscalYear) (fy : FiscalYearRules)
    (r : Regime) (category : string) (taxableIncome t : Q) :
  load_fiscal_year raw = Ok fy ->
  (r = old_regime fy \/ r = new_regime fy) ->
  (taxableIncome <= rebate_incomeThreshold fy)%Q ->
  regimeTax fy r category taxableIncome = Some t ->
  (0 <= t)%Q.
Proof.
  intros Hload Hr Hle Ht.
  destruct (EngineFacts.load_fiscal_year_sound _ _ Hload) as [_ [Wo Wn]].
  apply (PipelineFacts.regimeTax_below_threshold_nonneg fy r category taxableIncome);
    [destruct Hr; subst; assumption | assumption | assumption].
Qed.

(** Witness for C3: 2023-24, general category, taxable income 480,000
    (slab tax 11,500, fully rebated): the final tax is 0. *)
Lemma C3_rebate_nonnegative_witness :
  exists fy t, load_fiscal_year fy_2023_24 = Ok fy /\
    regimeTax fy (old_regime fy) "general" 480000 = Some t /\
    (t == 0)%Q /\ (0 <= t)%Q.
Proof.
  eexists; eexists.
  split; [vm_compute; reflexivity|].
  split; [vm_compute; reflexivity|].
  split; [vm_compute; reflexivity|].
  eapply (C3_rebate_nonnegative fy_2023_24 _ _ "general" 480000).
  - vm_compute; reflexivity.
  - left; reflexivity.
  - vm_compute; discriminate.
  - vm_compute; reflexivity.
Defined.

(** C4: for the 80C group (80C instruments plus home-loan principal,
    sharing the "80C" limit of the rule set), the reported [used] is the
    sum of the contributions capped once by the limit, so it never
    exceeds the limit. *)
Theorem C4_combined_cap (fy : FiscalYearRules)
    (total_80c_investments home_loan_principal_80c marginalRate L : Q)
    (b : DeductionBreakdown) :
  section80C fy total_80c_investments home_loan_principal_80c marginalRate = Some b ->
  dlimit b = Some L ->
  (used b <= L)%Q /\
  (used b == Qmin (total_80c_investments + home_loan_principal_80c) L)%Q /\
  remaining_capacity b = Some (Qmax 0 (L - used b)).
Proof.
  unfold section80C.
  destruct (assoc "80C" (deductionLimits fy)) as [lim|]; [|discriminate].
  intros E; inversion E; subst; clear E; simpl.
  intros El; subst lim; simpl.
  split; [apply Q.le_min_r|]. split; [apply Qeq_refl | reflexivity].
Qed.

(** Witness for C4: 2023-24, 80C instruments 100,000 and home-loan
    principal 80,000: [used] is 150,000 (not 180,000 from capping each
    part), nothing remains and the estimated further saving is 0. *)
Lemma C4_combined_cap_witness :
  exists fy b, load_fiscal_year fy_2023_24 = Ok fy /\
    section80C fy 100000 80000 0.20 = Some b /\
    (used b == 150000)%Q /\
    (estimated_tax_saving_if_fully_used b == 0)%Q /\
    (used b <= 150000)%Q.
Proof.
  eexists; eexists.
  split; [reflexivity|].
  match goal with |- section80C ?f _ _ _ = Some _ /\ _ => set (fy := f) end.
  split; [reflexivity|].
  split; [vm_compute; reflexivity|].
  split; [vm_compute; reflexivity|].
  eapply (C4_combined_cap fy 100000 80000 0.20 150000); vm_compute; reflexivity.
Defined.

(** C7: the reported regime is the old one exactly when its tax is
    strictly lower, the new one otherwise; ties go to the new regime;
    swapping the two taxes flips the choice unless they tie; the result
    of [compareRegimes] carries this choice for its two computed taxes. *)
Theorem C7_regime_selection :
  (forall oldTax newTax : Q,
      (optimalRegime oldTax newTax = OldRegime <-> (oldTax < newTax)%Q) /\
      (optimalRegime oldTax newTax = NewRegime <-> (newTax <= oldTax)%Q)) /\
  (forall oldTax newTax : Q,
      (oldTax == newTax)%Q -> optimalRegime oldTax newTax = NewRegime) /\
  (forall oldTax newTax : Q,
      ~ (oldTax == newTax)%Q ->
      optimalRegime newTax oldTax =
        match optimalRegime oldTax newTax with
        | OldRegime => NewRegime | NewRegime => OldRegime end) /\
  (forall fy category oldTaxable newTaxable res,
      compareRegimes fy category oldTaxable newTaxable = Some res ->
      optimal_regime res =
        optimalRegime (tax (oldRegimeResult res)) (tax (newRegimeResult res))).
Proof.
  assert (Hsel : forall a b : Q,
             (optimalRegime a b = OldRegime <-> (a < b)%Q) /\
             (optimalRegime a b = NewRegime <-> (b <= a)%Q)).
  { intros a b; unfold optimalRegime, Qlt_bool.
    destruct (Qle_bool b a) eqn:E; simpl.
    - apply Qle_bool_iff in E.
      split; split; intros H; try discriminate; try assumption; try reflexivity.
      exfalso; exact (Qlt_not_le _ _ H E).
    - assert (Hn : ~ (b <= a)%Q) by (intros H; apply Qle_bool_iff in H; congruence).
      split; split; intros H; try discriminate; try reflexivity.
      + apply Qnot_le_lt; assumption.
      + contradiction. }
  split; [exact Hsel|].
  split.
  { intros a b Heq; apply (proj2 (Hsel a b)); rewrite Heq; apply Qle_refl. }
  split.
  { intros a b Hne.
    destruct (Qlt_le_dec a b) as [Hlt|Hle].
    - rewrite (proj2 (proj1 (Hsel a b)) Hlt).
      apply (proj2 (Hsel b a)); apply Qlt_le_weak; assumption.
    - rewrite (proj2 (proj2 (Hsel a b)) Hle).
      apply (proj2 (proj1 (Hsel b a))).
      destruct (Qle_lt_or_eq _ _ Hle) as [Hlt|Heq]; [assumption|].
      exfalso; apply Hne; symmetry; assumption. }
  intros fy category oldTaxable newTaxable res; unfold compareRegimes.
  destruct (regimeTax fy (old_regime fy) category oldTaxable);
    destruct (regimeTax fy (new_regime fy) "general" newTaxable); try discriminate.
  intros E; inversion E; reflexivity.
Qed.

(** Witness for C7: taxes 33,800 against 41,600 choose the old regime,
    the swap chooses the new one, and a tie at 33,800 chooses the new
    regime. *)
Lemma C7_regime_selection_witness :
  optimalRegime 33800 41600 = OldRegime /\
  optimalRegime 41600 33800 = NewRegime /\
  optimalRegime 33800 33800 = NewRegime.
Proof.
  destruct C7_regime_selection as (Hsel & Htie & Hswap & _).
  assert (E : optimalRegime 33800 41600 = OldRegime)
    by (apply (proj2 (proj1 (Hsel 33800 41600))); vm_compute; reflexivity).
  split; [exact E|].
  split.
  - rewrite (Hswap 33800 41600) by (vm_compute; discriminate). rewrite E; reflexivity.
  - apply Htie; vm_compute; reflexivity.
Defined.

(* ------------------------------------------------------------------ *)
(** ** Claims on the mock calculator and the front end *)

(** C8: the mock [calculateTax] reads no state: its result is
    [mock_response data] whatever the console and clock, so two calls with
    the same request, even one after the other, return the same object;
    only the console and the clock change. *)
Theorem C8_calculateTax_deterministic :
  (forall data w, fst (Mock.calculateTax data w) = Mock.mock_response data) /\
  (forall data1 data2 w1 w2, data1 = data2 ->
      fst (Mock.calculateTax data1 w1) = fst (Mock.calculateTax data2 w2)) /\
  (forall data w,
      fst (Mock.calculateTax data (snd (Mock.calculateTax data w))) =
      fst (Mock.calculateTax data w)).
Proof.
  split; [intros; reflexivity|].
  split; [intros data1 data2 w1 w2 E; subst; reflexivity|].
  intros; reflexivity.
Qed.

(** Witness for C8: two calls from two different worlds. *)
Lemma C8_calculateTax_deterministic_witness :
  let data := {| Mock.email := ""; Mock.birthDate := "2000-06-15";
                 Mock.gender := "male"; Mock.employmentType := "salaried";
                 Mock.residencyCountry := "india";
                 Mock.hasDependentSeniorParents := false;
                 Mock.basicSalary := 1000000%float; Mock.hraReceived := false;
                 Mock.hraAmount := 0%float; Mock.cityType := "metro";
                 Mock.taxSavingInvestments := 150000%float;
                 Mock.npsContribution := ""; Mock.healthInsurance := 0%float;
                 Mock.hasStudentLoan := false; Mock.studentLoanInterest := 0%float;
                 Mock.hasHousingLoan := false; Mock.isSelfOccupied := false;
                 Mock.housingLoanInterest := 0%float; Mock.capitalGains := 0%float;
                 Mock.gainsAmount := 0%float; Mock.dividends := 0%float;
                 Mock.investmentType := ""; Mock.digitalAssetsSale := 0%float;
                 Mock.disabilityStatus := "None";
                 Mock.criticalIllnessExpenses := 0%float;
                 Mock.hasDisabledDependents := false;
                 Mock.dependentMedicalExpenses := 0%float |} in
  fst (Mock.calculateTax data {| Mock.console := []; Mock.clock := 0 |}) =
  fst (Mock.calculateTax data {| Mock.console := [data]; Mock.clock := 1000 |}).
Proof.
  intros data.
  destruct C8_calculateTax_deterministic as (_ & H & _).
  apply H; reflexivity.
Defined.

(** C9: the object the mock [calculateTax] returns has exactly the keys
    oldRegime and newRegime (with currentTaxLiability, potentialSavings,
    optimizedTaxPayable, and optimizedTaxPayable below them) and no
    old_regime, new_regime or optimal_regime; each access TaxResults makes
    ([result.old_regime.tax], [result.old_regime.taxable_income],
    [result.new_regime.tax], [result.new_regime.taxable_income],
    [result.optimal_regime]) throws or reads [undefined]. *)
Theorem C9_mock_result_shape (data : Mock.TaxCalculationRequest) (w : Mock.World) :
  let r := fst (Mock.calculateTax data w) in
  Mock.keys r = ["oldRegime"; "newRegime"] /\
  option_map Mock.keys (Mock.member r "oldRegime") =
    Some ["currentTaxLiability"; "potentialSavings"; "optimizedTaxPayable"] /\
  option_map Mock.keys (Mock.member r "newRegime") = Some ["optimizedTaxPayable"] /\
  Mock.member r "old_regime" = Some Mock.JUndefined /\
  Mock.member r "new_regime" = Some Mock.JUndefined /\
  Mock.member r "optimal_regime" = Some Mock.JUndefined /\
  Mock.member_path r ["old_regime"; "tax"] = None /\
  Mock.member_path r ["new_regime"; "tax"] = None /\
  Forall (fun p => Mock.member_path r p = None \/
                   Mock.member_path r p = Some Mock.JUndefined) Mock.taxresults_paths.
Proof.
  intros r.
  repeat split; try reflexivity.
  repeat (apply Forall_cons; [first [left; reflexivity | right; reflexivity] |]).
  apply Forall_nil.
Qed.

(** C6: every request built by [mapFormDataToRequest] has [rent = 0]. *)
Theorem C6_rent_zero (currentDate : Form.JsDate) (formData : Form.TaxFormData) :
  Form.rent (Form.mapFormDataToRequest currentDate formData) = 0%float.
Proof. reflexivity. Qed.

(** C5 (code defect): [mapFormDataToRequest] sends the difference of the
    calendar years as the age.  Born 2000-06-15, on 2026-03-01 the request
    carries age 26, while the completed years are 25. *)
Theorem C5_age_year_difference :
  Form.age (Form.mapFormDataToRequest {| Form.year := 2026; Form.month := 3; Form.day := 1 |}
              (Form.with_birthDate Form.defaultFormData "2000-06-15")) = Some 26%Z /\
  Form.completed_years {| Form.year := 2026; Form.month := 3; Form.day := 1 |}
                       {| Form.year := 2000; Form.month := 6; Form.day := 15 |} = 25%Z.
Proof. split; vm_compute; reflexivity. Qed.

Module FormFacts.
Import Form.
Local Open Scope string_scope.

Lemma reachable_status_in (items : list string) (fd : TaxFormData) :
  In "None" items -> reachable items fd -> In (disabilityStatus (medicalDetails fd)) items.
Proof.
  intros Hnone Hr; induction Hr as [| fd e Hr IH Hallowed | fd fd' Hr IH Hm].
  - exact Hnone.
  - destruct e as [v | n | b | n]; simpl; try exact IH.
    simpl in Hallowed. apply existsb_exists in Hallowed as [x [Hx Hxv]].
    apply String.eqb_eq in Hxv; subst; exact Hx.
  - rewrite Hm; exact IH.
Qed.

Lemma severe_state_reachable : reachable items_components severe_state.
Proof. apply reach_medical; [apply reach_default | reflexivity]. Qed.

End FormFacts.

(** C10 (as amended): through the part_002 medical form (None, Partial,
    Full) the status stays among its items and [severe_disability_self]
    is always false; through the form of
    src/src/components/tax-calculator/MedicalDetailsForm.tsx (None,
    Severe, Partial), the one Index.tsx renders, the status stays among
    its items and [severe_disability_self] is true exactly for "Severe",
    which is reachable; [is_disabled_self] is true exactly when the status
    is not "None". *)
Theorem C10_disability_mapping :
  (forall currentDate fd, Form.reachable Form.items_part_002 fd ->
     In (Form.disabilityStatus (Form.medicalDetails fd)) Form.items_part_002 /\
     Form.severe_disability_self (Form.mapFormDataToRequest currentDate fd) = false) /\
  (forall currentDate fd, Form.reachable Form.items_components fd ->
     In (Form.disabilityStatus (Form.medicalDetails fd)) Form.items_components /\
     Form.severe_disability_self (Form.mapFormDataToRequest currentDate fd) =
       String.eqb (Form.disabilityStatus (Form.medicalDetails fd)) "Severe") /\
  (forall currentDate fd,
     Form.is_disabled_self (Form.mapFormDataToRequest currentDate fd) =
       negb (String.eqb (Form.disabilityStatus (Form.medicalDetails fd)) "None")) /\
  (exists fd, Form.reachable Form.items_components fd /\
     forall currentDate,
       Form.severe_disability_self (Form.mapFormDataToRequest currentDate fd) = true).
Proof.
  split.
  { intros currentDate fd Hr.
    pose proof (FormFacts.reachable_status_in Form.items_part_002 fd
                  ltac:(left; reflexivity) Hr) as Hin.
    split; [exact Hin|].
    simpl; destruct Hin as [E | [E | [E | []]]]; rewrite <- E; reflexivity. }
  split.
  { intros currentDate fd Hr; split; [|reflexivity].
    exact (FormFacts.reachable_status_in Form.items_components fd
             ltac:(left; reflexivity) Hr). }
  split; [intros; reflexivity|].
  exists Form.severe_state; split; [exact FormFacts.severe_state_reachable|].
  intros; reflexivity.
Qed.

(** Witness for C10: the initial form state under the part_002 form, and
    the "Severe" state under the rendered form. *)
Lemma C10_disability_mapping_witness :
  Form.severe_disability_self
    (Form.mapFormDataToRequest {| Form.year := 2026; Form.month := 3; Form.day := 1 |}
                               Form.defaultFormData) = false /\
  Form.severe_disability_self
    (Form.mapFormDataToRequest {| Form.year := 2026; Form.month := 3; Form.day := 1 |}
                               Form.severe_state) = true.
Proof.
  destruct C10_disability_mapping as (H1 & H2 & _ & _).
  split.
  - exact (proj2 (H1 _ Form.defaultFormData (Form.reach_default Form.items_part_002))).
  - rewrite (proj2 (H2 _ Form.severe_state FormFacts.severe_state_reachable)).
    reflexivity.
Defined.

(** C10 as stated fails: the medical-details form that Index.tsx renders
    offers "Severe", and choosing it makes [severe_disability_self]
    true. *)
Lemma C10_severe_branch_reachable :
  ~ (forall currentDate fd, Form.reachable Form.items_components fd ->
       In (Form.disabilityStatus (Form.medicalDetails fd)) ["None"; "Partial"; "Full"] /\
       Form.severe_disability_self (Form.mapFormDataToRequest currentDate fd) = false).
Proof.
  intros H.
  destruct (H {| Form.year := 2026; Form.month := 3; Form.day := 1 |}
              Form.severe_state FormFacts.severe_state_reachable) as [_ Hs].
  discriminate Hs.
Qed.

(* ------------------------------------------------------------------ *)
(** * Further properties of the page and the API layer *)

Module AppFacts.
Import Form App.
Local Open Scope string_scope.

Lemma app_step_cases (st st' : AppState) (ev : AppEvent) :
  app_step st ev = Some st' ->
  (exists e, ev = Field e /\ field_screen e = renderStep (currentStep st)
     /\ field_enabled (formData st) e = true
     /\ st' = {| currentStep := currentStep st; formData := apply_field (formData st) e;
                 result := result st; console_out := console_out st |})
  \/ (exists n, ev = Next /\ onNext (renderStep (currentStep st)) = Some n
        /\ required_ok (renderStep (currentStep st)) (formData st) = true /\ st' = goto st n)
  \/ (exists n, ev = Previous /\ onPrevious (renderStep (currentStep st)) = Some n
        /\ st' = goto st n)
  \/ (ev = Calculate /\ renderStep (currentStep st) = STaxResults /\ result st = None
      /\ st' = {| currentStep := currentStep st; formData := formData st; result := result st;
                  console_out := (console_out st ++ [formData st])%list |}).
Proof.
  unfold app_step. destruct ev as [e| | |] ; intro H; cbv zeta in H.
  - left. exists e.
    destruct (field_screen e) eqn:Hs, (renderStep (currentStep st)) eqn:Hr; simpl in H;
      try discriminate;
      (destruct (field_enabled (formData st) e) eqn:He; [|discriminate]);
      injection H as <-; repeat split; reflexivity.
  - right; left. destruct (onNext (renderStep (currentStep st))) as [n|] eqn:Hn; [|discriminate].
    destruct (required_ok _ _) eqn:Hq; [|discriminate]. injection H as <-. eauto.
  - right; right; left. destruct (onPrevious (renderStep (currentStep st))) as [n|] eqn:Hn;
      [|discriminate]. injection H as <-. eauto.
  - right; right; right.
    destruct (renderStep (currentStep st)) eqn:Hr; destruct (result st) eqn:Hres;
      try discriminate; injection H as <-; auto.
Qed.

Lemma onNext_range (s : Screen) (n : Z) : onNext s = Some n -> (2 <= n <= 7)%Z.
Proof. destruct s; simpl; intro H; try discriminate; injection H as <-; lia. Qed.

Lemma onPrevious_range (s : Screen) (n : Z) : onPrevious s = Some n -> (1 <= n <= 6)%Z.
Proof. destruct s; simpl; intro H; try discriminate; injection H as <-; lia. Qed.

Lemma renderStep_personal (n : Z) :
  (1 <= n <= 7)%Z -> renderStep n = SPersonalInfo -> n = 1%Z.
Proof.
  intros Hn. unfold renderStep.
  destruct (n =? 1)%Z eqn:E1; [apply Z.eqb_eq in E1; auto|].
  destruct (n =? 2)%Z eqn:E2; [discriminate|]. destruct (n =? 3)%Z eqn:E3; [discriminate|].
  destruct (n =? 4)%Z eqn:E4; [discriminate|]. destruct (n =? 5)%Z eqn:E5; [discriminate|].
  destruct (n =? 6)%Z eqn:E6; [discriminate|]. destruct (n =? 7)%Z eqn:E7; [discriminate|].
  apply Z.eqb_neq in E1, E2, E3, E4, E5, E6, E7. lia.
Qed.

Lemma personalInfo_other_fields (fd : TaxFormData) (e : FieldEvent) :
  field_screen e <> SPersonalInfo -> personalInfo (apply_field fd e) = personalInfo fd.
Proof. destruct e; simpl; intro H; try reflexivity; exfalso; apply H; reflexivity. Qed.

Lemma run_reachable (evs : list AppEvent) : forall st st',
  app_reachable st -> run st evs = Some st' -> app_reachable st'.
Proof.
  induction evs as [|ev rest IH]; simpl; intros st st' Hr H.
  - injection H as <-; exact Hr.
  - destruct (app_step st ev) as [s|] eqn:Hs; [|discriminate].
    apply (IH s); [econstructor; eassumption | exact H].
Qed.

Lemma app_invariant (st : AppState) :
  app_reachable st ->
  (1 <= currentStep st <= 7)%Z /\ result st = None
  /\ (birthDate (personalInfo (formData st)) = ""
      \/ exists b, parse_date (birthDate (personalInfo (formData st))) = Some b)
  /\ ((2 <= currentStep st)%Z ->
      email (personalInfo (formData st)) <> "" /\ birthDate (personalInfo (formData st)) <> "").
Proof.
  induction 1 as [|st ev st' Hr IH Hs].
  - simpl. repeat split; try lia. left; reflexivity.
  - destruct IH as (Hn & Hres & Hb & Hreq).
    apply app_step_cases in Hs.
    destruct Hs as [(e & -> & Hscr & Hen & ->)|[(n & -> & Hnx & Hq & ->)|[(n & -> & Hpv & ->)|(-> & _ & _ & ->)]]];
      simpl.
    + assert (Hd : {field_screen e = SPersonalInfo} + {field_screen e <> SPersonalInfo})
        by (destruct (field_screen e); [left; reflexivity | right; discriminate ..]).
      refine (conj Hn (conj Hres (conj _ _))).
      * destruct Hd as [Hfs|Hfs].
        -- destruct e; try discriminate; simpl; auto.
           simpl in Hen. destruct (parse_date v) eqn:Hp; [right; eauto|].
           left. apply String.eqb_eq. exact Hen.
        -- rewrite personalInfo_other_fields by exact Hfs; auto.
      * intro H2. destruct Hd as [Hfs|Hfs].
        -- exfalso. rewrite Hfs in Hscr.
           pose proof (renderStep_personal _ Hn (eq_sym Hscr)). lia.
        -- rewrite personalInfo_other_fields by exact Hfs; auto.
    + apply onNext_range in Hnx as Hr2. unfold goto; simpl.
      refine (conj _ (conj Hres (conj Hb _))); [lia|]. intros _.
      destruct (Z.eq_dec (currentStep st) 1) as [E|E].
      * rewrite E in Hq. simpl in Hq. apply andb_prop in Hq as [Hq1 Hq2].
        apply Bool.negb_true_iff, String.eqb_neq in Hq1, Hq2. auto.
      * apply Hreq. lia.
    + apply onPrevious_range in Hpv as Hr2. unfold goto; simpl.
      refine (conj _ (conj Hres (conj Hb _))); [lia|]. intros _. apply Hreq.
      destruct (Z.le_gt_cases 2 (currentStep st)) as [|Hlt]; [assumption|].
      assert (currentStep st = 1)%Z as E by lia. rewrite E in Hpv. discriminate.
    + auto.
Qed.

Lemma in_items_In (items : list string) (v : string) : in_items items v = true -> In v items.
Proof.
  unfold in_items. intro H. apply existsb_exists in H as (x & Hx & Heq).
  apply String.eqb_eq in Heq. subst. exact Hx.
Qed.

Lemma app_selects (st : AppState) :
  app_reachable st ->
  In (cityType (incomeDetails (formData st))) ("" :: city_items)
  /\ In (employmentType (personalInfo (formData st))) ("" :: employment_items)
  /\ In (residencyCountry (personalInfo (formData st))) ("" :: residency_items)
  /\ In (investmentType (investmentGains (formData st))) ("" :: investment_type_items)
  /\ In (disabilityStatus (medicalDetails (formData st))) items_components.
Proof.
  induction 1 as [|st ev st' Hr IH Hs].
  - simpl. repeat split; left; reflexivity.
  - destruct IH as (H1 & H2 & H3 & H4 & H5).
    apply app_step_cases in Hs.
    destruct Hs as [(e & -> & _ & Hen & ->)|[(n & -> & _ & _ & ->)|[(n & -> & _ & ->)|(-> & _ & _ & ->)]]];
      simpl; auto.
    destruct e; try (apply in_items_In in Hen); simpl; repeat split; auto; try (right; exact Hen).
    destruct e; auto. apply (in_items_In items_components). exact Hen.
Qed.
End AppFacts.

Module WireFacts.
Import Wire.
Local Open Scope string_scope.

Lemma map_any_nested (currentDate : Form.JsDate) (fd : Form.TaxFormData) :
  mapFormDataToRequest_any currentDate (encode_form fd)
  = Some (encode_request (Form.mapFormDataToRequest currentDate fd)).
Proof.
  destruct fd as [st [] [] [] [] [] []].
  unfold encode_request, Form.mapFormDataToRequest, Form.or_zero. cbn.
  unfold js_or_zero. cbn.
  destruct (PrimFloat.is_nan npsContribution || (npsContribution =? 0)%float)%bool; reflexivity.
Qed.

Lemma map_any_spread_fails (currentDate : Form.JsDate) (fd : Form.TaxFormData) :
  mapFormDataToRequest_any currentDate (spread_sections fd) = None.
Proof. destruct fd as [st [] [] [] [] [] []]. reflexivity. Qed.

End WireFacts.

Import App.
Local Open Scope string_scope.

(** The wizard's step counter stays within 1..7 in every reachable page
    state, so [renderStep] never falls through to its default branch. *)
Theorem wizard_step_in_range (st : AppState) :
  app_reachable st -> (1 <= currentStep st <= 7)%Z.
Proof. intro H. apply (AppFacts.app_invariant st H). Qed.

Lemma wizard_step_in_range_witness :
  exists st, run app_init [Field (SetEmail "a@b.in"); Field (SetBirthDate "1990-05-20");
                           Next; Next; Previous] = Some st
             /\ (1 <= currentStep st <= 7)%Z.
Proof.
  match goal with |- exists st, run _ ?evs = Some st /\ _ => set (E := evs) end.
  eexists; split; [reflexivity|].
  apply wizard_step_in_range.
  eapply (AppFacts.run_reachable E); [apply app_reach_init | reflexivity].
Defined.

(** The page never shows a result: TaxResults' handleCalculate only logs
    the form data and nothing calls [setResult], so [result] stays null. *)
Theorem results_never_set (st : AppState) :
  app_reachable st -> result st = None.
Proof. intro H. apply (AppFacts.app_invariant st H). Qed.

Lemma results_never_set_witness :
  exists st, run app_init [Field (SetEmail "a@b.in"); Field (SetBirthDate "1990-05-20");
                           Next; Next; Next; Next; Next; Next; Calculate; Calculate] = Some st
             /\ currentStep st = 7%Z /\ result st = None.
Proof.
  match goal with |- exists st, run _ ?evs = Some st /\ _ => set (E := evs) end.
  eexists; split; [reflexivity|]. split; [reflexivity|].
  apply results_never_set.
  eapply (AppFacts.run_reachable E); [apply app_reach_init | reflexivity].
Defined.



(** Every select-backed field holds "" (its initial value) or one of the
    items its select offers; in particular the request's city is "",
    "metro" or "non-metro". *)
Theorem select_fields_in_items (st : AppState) :
  app_reachable st ->
  In (Form.cityType (Form.incomeDetails (formData st))) ("" :: city_items)
  /\ In (Form.employmentType (Form.personalInfo (formData st))) ("" :: employment_items)
  /\ In (Form.residencyCountry (Form.personalInfo (formData st))) ("" :: residency_items)
  /\ In (Form.investmentType (Form.investmentGains (formData st))) ("" :: investment_type_items)
  /\ In (Form.disabilityStatus (Form.medicalDetails (formData st))) Form.items_components.
Proof. apply AppFacts.app_selects. Qed.

Lemma select_fields_in_items_witness :
  exists st, run app_init [Field (SetEmail "a@b.in"); Field (SetBirthDate "1990-05-20");
                           Next; Field (SetCityType "metro"); Next; Next; Next; Next;
                           Field (SetMedical (Form.SelectDisabilityStatus "Severe"))] = Some st
  /\ (In (Form.cityType (Form.incomeDetails (formData st))) ("" :: city_items)
  /\ In (Form.employmentType (Form.personalInfo (formData st))) ("" :: employment_items)
  /\ In (Form.residencyCountry (Form.personalInfo (formData st))) ("" :: residency_items)
  /\ In (Form.investmentType (Form.investmentGains (formData st))) ("" :: investment_type_items)
  /\ In (Form.disabilityStatus (Form.medicalDetails (formData st))) Form.items_components).
Proof.
  match goal with |- exists st, run _ ?evs = Some st /\ _ => set (E := evs) end.
  eexists; split; [reflexivity|].
  apply select_fields_in_items.
  eapply (AppFacts.run_reachable E); [apply app_reach_init | reflexivity].
Defined.

(** Switching the education-loan or home-loan switch, on or off, leaves
    the request unchanged: the hidden interest amounts and the
    self-occupied flag are still sent. *)
Theorem loan_switches_keep_request (st st' : AppState) (b : bool) (currentDate : Form.JsDate) :
  app_step st (Field (SetHasStudentLoan b)) = Some st'
  \/ app_step st (Field (SetHasHousingLoan b)) = Some st' ->
  Form.mapFormDataToRequest currentDate (formData st')
  = Form.mapFormDataToRequest currentDate (formData st).
Proof.
  intros [H|H]; apply AppFacts.app_step_cases in H;
    destruct H as [(e & He & _ & _ & ->)|[(n & He & _)|[(n & He & _)|(He & _)]]];
    try discriminate; injection He as <-; reflexivity.
Qed.

Lemma loan_switches_keep_request_witness :
  exists st st', run app_init [Field (SetEmail "a@b.in"); Field (SetBirthDate "1990-05-20");
                               Next; Next; Next; Field (SetHasHousingLoan true);
                               Field (SetHousingLoanInterest 200000%float)] = Some st
    /\ app_step st (Field (SetHasHousingLoan false)) = Some st'
    /\ Form.mapFormDataToRequest {| Form.year := 2026; Form.month := 3; Form.day := 1 |} (formData st')
       = Form.mapFormDataToRequest {| Form.year := 2026; Form.month := 3; Form.day := 1 |} (formData st)
    /\ Form.home_loan_interest
         (Form.mapFormDataToRequest {| Form.year := 2026; Form.month := 3; Form.day := 1 |} (formData st'))
       = 200000%float.
Proof.
  do 2 eexists. split; [reflexivity|]. split; [reflexivity|]. split.
  - apply (loan_switches_keep_request _ _ false). right. reflexivity.
  - reflexivity.
Defined.

(** Switching HRA off clears isOwnedHouse and sends has_hra = false, but
    keeps the HRA amount, which is still sent as hra_received; the rest of
    the request is unchanged. *)
Theorem hra_off_keeps_amount (st st' : AppState) (currentDate : Form.JsDate) :
  app_step st (Field (SetHraReceived false)) = Some st' ->
  let r := Form.mapFormDataToRequest currentDate (formData st) in
  let r' := Form.mapFormDataToRequest currentDate (formData st') in
  Form.isOwnedHouse (Form.incomeDetails (formData st')) = false
  /\ Form.has_hra r' = false
  /\ Form.hra_received r' = Form.hraAmount (Form.incomeDetails (formData st))
  /\ r' = {| Form.income := Form.income r; Form.age := Form.age r; Form.r_gender := Form.r_gender r;
             Form.city := Form.city r; Form.rent := Form.rent r; Form.has_hra := false;
             Form.basic_salary := Form.basic_salary r; Form.hra_received := Form.hra_received r;
             Form.property_self_occupied := Form.property_self_occupied r;
             Form.home_loan_interest := Form.home_loan_interest r;
             Form.home_loan_principal_80c := Form.home_loan_principal_80c r;
             Form.sec_80ee := Form.sec_80ee r; Form.sec_80eea := Form.sec_80eea r;
             Form.total_80c_investments := Form.total_80c_investments r;
             Form.nps_80ccd_1b := Form.nps_80ccd_1b r;
             Form.health_insurance_self_parents := Form.health_insurance_self_parents r;
             Form.is_disabled_self := Form.is_disabled_self r;
             Form.is_disabled_dependent := Form.is_disabled_dependent r;
             Form.severe_disability_self := Form.severe_disability_self r;
             Form.severe_disability_dep := Form.severe_disability_dep r;
             Form.critical_illness_bills := Form.critical_illness_bills r;
             Form.student_loan_interest := Form.student_loan_interest r;
             Form.donations_80g := Form.donations_80g r;
             Form.royalty_income_80rrb := Form.royalty_income_80rrb r;
             Form.is_startup_investments := Form.is_startup_investments r;
             Form.r_startup_investments_80iac := Form.r_startup_investments_80iac r;
             Form.cooperative_society_80p := Form.cooperative_society_80p r;
             Form.number_of_new_employees_80jjaa := Form.number_of_new_employees_80jjaa r;
             Form.new_employees_wages_80jjaa := Form.new_employees_wages_80jjaa r;
             Form.r_deduction_from_scientific_research := Form.r_deduction_from_scientific_research r;
             Form.is_exempted_under_80gge := Form.is_exempted_under_80gge r;
             Form.savings_interest_80tta := Form.savings_interest_80tta r;
             Form.interest_income_80ttb := Form.interest_income_80ttb r;
             Form.donation_100pct_no_limit := Form.donation_100pct_no_limit r;
             Form.donation_50pct_no_limit := Form.donation_50pct_no_limit r;
             Form.donation_100pct_with_limit := Form.donation_100pct_with_limit r;
             Form.donation_50pct_with_limit := Form.donation_50pct_with_limit r |}.
Proof.
  intro H. apply AppFacts.app_step_cases in H.
  destruct H as [(e & He & _ & _ & ->)|[(n & He & _)|[(n & He & _)|(He & _)]]];
    try discriminate; injection He as <-.
  repeat split; reflexivity.
Qed.

Lemma hra_off_keeps_amount_witness :
  exists st st', run app_init [Field (SetEmail "a@b.in"); Field (SetBirthDate "1990-05-20");
                               Next; Field (SetHraReceived true);
                               Field (SetHraAmount 120000%float)] = Some st
    /\ app_step st (Field (SetHraReceived false)) = Some st'
    /\ Form.has_hra (Form.mapFormDataToRequest {| Form.year := 2026; Form.month := 3; Form.day := 1 |}
                                                (formData st')) = false
    /\ Form.hra_received (Form.mapFormDataToRequest {| Form.year := 2026; Form.month := 3; Form.day := 1 |}
                                                     (formData st')) = 120000%float.
Proof.
  do 2 eexists. split; [reflexivity|].
  match goal with |- ?step_eq /\ _ => assert (H : step_eq) by reflexivity end.
  split; [exact H|].
  destruct (hra_off_keeps_amount _ _ {| Form.year := 2026; Form.month := 3; Form.day := 1 |} H)
    as (_ & H1 & H2 & _).
  split; [exact H1|]. rewrite H2. reflexivity.
Defined.

(** The request ignores everything the page collects besides the fields it
    maps: editing the email, employment type, residency, senior-parents
    box, owned-house switch, either loan switch, any investment-gains
    input or the dependents' medical expenses never changes it. *)
Theorem request_ignores_unmapped_inputs (currentDate : Form.JsDate) (fd : Form.TaxFormData) :
  let m := Form.mapFormDataToRequest currentDate in
  (forall x, m (apply_field fd (SetEmail x)) = m fd)
  /\ (forall x, m (apply_field fd (SetEmploymentType x)) = m fd)
  /\ (forall x, m (apply_field fd (SetResidencyCountry x)) = m fd)
  /\ (forall b, m (apply_field fd (SetHasDependentSeniorParents b)) = m fd)
  /\ (forall b, m (apply_field fd (SetIsOwnedHouse b)) = m fd)
  /\ (forall b, m (apply_field fd (SetHasStudentLoan b)) = m fd)
  /\ (forall b, m (apply_field fd (SetHasHousingLoan b)) = m fd)
  /\ (forall x, m (apply_field fd (SetCapitalGains x)) = m fd)
  /\ (forall x, m (apply_field fd (SetGainsAmount x)) = m fd)
  /\ (forall x, m (apply_field fd (SetDividends x)) = m fd)
  /\ (forall x, m (apply_field fd (SetInvestmentType x)) = m fd)
  /\ (forall x, m (apply_field fd (SetDigitalAssetsSale x)) = m fd)
  /\ (forall x, m (apply_field fd (SetMedical (Form.SetDependentMedicalExpenses x))) = m fd).
Proof. repeat split; reflexivity. Qed.



Import Wire.


(** The spread of part_007 loses nothing: no two sections share a key, so
    the flat object lists every field of every section, in order. *)
Theorem spread_sections_concat (fd : Form.TaxFormData) :
  spread_sections fd
  = VObject (flat_map (fun v => match v with VObject fs => fs | _ => [] end)
      [encode_personalInfo (Form.personalInfo fd); encode_incomeDetails (Form.incomeDetails fd);
       encode_investmentDetails (Form.investmentDetails fd); encode_loanDetails (Form.loanDetails fd);
       encode_investmentGains (Form.investmentGains fd);
       encode_medicalDetails (Form.medicalDetails fd)]).
Proof. destruct fd as [st [] [] [] [] [] []]. reflexivity. Qed.

(** The flat object has no [personalInfo] key, so part_006's
    calculateTax throws a TypeError at [formData.personalInfo.birthDate]
    before sending anything, whatever the network would answer. *)
Theorem calculateTax_on_spread_throws (currentDate : Form.JsDate) (network : value -> FetchResult)
    (fd : Form.TaxFormData) :
  get (spread_sections fd) "personalInfo" = Some VUndefined
  /\ calculateTax currentDate network (spread_sections fd)
     = (Threw TypeError, [ConsoleError "Error calculating tax:" TypeError])
  /\ requests_sent (snd (calculateTax currentDate network (spread_sections fd))) = [].
Proof.
  split; [destruct fd as [st [] [] [] [] [] []]; reflexivity|].
  unfold calculateTax. rewrite WireFacts.map_any_spread_fails. split; reflexivity.
Qed.

(** Composed, part_007's handleCalculate with part_006's calculateTax
    always ends in the error toast: the result is left as it was, the
    button is enabled again, and two console errors are the only effects. *)
Theorem handleCalculate_always_fails (currentDate : Form.JsDate) (network : value -> FetchResult)
    (fd : Form.TaxFormData) (st : ResultsState) :
  handleCalculate (calculateTax currentDate network) fd st
  = {| result := result st; isCalculating := false;
       toasts := (toasts st ++ [ToastError "Failed to calculate tax. Please try again."])%list;
       effects := (effects st ++ [ConsoleError "Error calculating tax:" TypeError;
                                  ConsoleError "Tax calculation error:" TypeError])%list |}
  /\ (result st = None ->
      render (handleCalculate (calculateTax currentDate network) fd st)
      = ShowButton false "Calculate Tax").
Proof.
  unfold handleCalculate, calc_finish, calculateTax at 1.
  rewrite WireFacts.map_any_spread_fails. simpl. split; [reflexivity|].
  intro Hn. unfold render. simpl. rewrite Hn. reflexivity.
Qed.

(** [handleCalculate] for any calculator: it always clears isCalculating
    and shows exactly one toast; the result is replaced only on success,
    and while the call is pending the button is disabled and reads
    "Calculating...". *)
Theorem handleCalculate_settles (calc : value -> Outcome * list Effect) (fd : Form.TaxFormData)
    (st : ResultsState) :
  let st' := handleCalculate calc fd st in
  isCalculating st' = false
  /\ (exists t, toasts st' = (toasts st ++ [t])%list
      /\ match fst (calc (spread_sections fd)) with
         | Returned r => result st' = Some r
                         /\ t = ToastSuccess "Tax calculation completed successfully"
         | Threw _ => result st' = result st
                      /\ t = ToastError "Failed to calculate tax. Please try again."
         end)
  /\ (result st = None -> render (calc_start st) = ShowButton true "Calculating...").
Proof.
  unfold handleCalculate, calc_finish. simpl.
  destruct (calc (spread_sections fd)) as [[r|e] eff]; simpl.
  - split; [reflexivity|]. split; [eexists; split; [reflexivity|]; split; reflexivity|].
    intro Hn. unfold render; simpl. rewrite Hn. reflexivity.
  - split; [reflexivity|]. split; [eexists; split; [reflexivity|]; split; reflexivity|].
    intro Hn. unfold render; simpl. rewrite Hn. reflexivity.
Qed.

(** On the nested form state, part_006's calculateTax sends exactly one
    POST to the API, whose body is the mapped request; it returns the
    parsed body of an ok response and otherwise rethrows: a TypeError on a
    network failure, Error("Failed to calculate tax") on a non-ok status,
    a SyntaxError on a body that is not JSON. *)
Theorem calculateTax_nested (currentDate : Form.JsDate) (network : value -> FetchResult)
    (fd : Form.TaxFormData) (answer : FetchResult) :
  network (encode_request (Form.mapFormDataToRequest currentDate fd)) = answer ->
  let out := calculateTax currentDate network (encode_form fd) in
  requests_sent (snd out) = [encode_request (Form.mapFormDataToRequest currentDate fd)]
  /\ In (Fetch api_url "POST" (encode_request (Form.mapFormDataToRequest currentDate fd))) (snd out)
  /\ fst out = match answer with
               | NetworkFailure => Threw TypeError
               | Response false _ => Threw (Error "Failed to calculate tax")
               | Response true None => Threw SyntaxError
               | Response true (Some data) => Returned data
               end.
Proof.
  intro Hn. unfold calculateTax. rewrite WireFacts.map_any_nested, Hn.
  destruct answer as [|[] [d|]]; simpl; repeat split; auto.
Qed.

Lemma calculateTax_nested_witness :
  (fun _ => Response false None) (encode_request (Form.mapFormDataToRequest
     {| Form.year := 2026; Form.month := 3; Form.day := 1 |} Form.defaultFormData))
  = Response false None
  /\ fst (calculateTax {| Form.year := 2026; Form.month := 3; Form.day := 1 |}
            (fun _ => Response false None) (encode_form Form.defaultFormData))
     = Threw (Error "Failed to calculate tax").
Proof.
  split; [reflexivity|].
  apply (calculateTax_nested {| Form.year := 2026; Form.month := 3; Form.day := 1 |}
           (fun _ => Response false None) Form.defaultFormData (Response false None)).
  reflexivity.
Defined.
